(** * Telemetry aggregation layer of the telegram-files monitor

    A shallow embedding of [src/monitor/app.py]: the log-tail reader
    ([parse_log_file]), the sync-log aggregation ([get_sync_stats]), the
    network rate sampler ([get_network_stats]), the service probe
    ([get_service_status]), the progress tracker ([get_upload_progress]),
    the configuration reader ([read_config]), the remote storage statistics
    ([get_cloud_stats], [get_cloud_quota]) and the session views ([login],
    [logout], [change_password]), followed by the properties of the
    specification that concern them.

    Modelling conventions.
    - A Python [str] is a Rocq [string]: the sequence of bytes of its UTF-8
      encoding.  Substring tests and the patterns of the program only ever
      look for ASCII delimiters or whole literals, and UTF-8 is
      self-synchronising, so the byte view and the code-point view agree on
      them.  The classes [\d] and [\s] are the ASCII ones (the non-ASCII
      digits and blanks of Unicode are not modelled).
    - Python integers are [Z].  [int] applied to a string of digits raises
      [ValueError] when the string has more than 4300 digits (CPython's
      default limit on integer string conversion).
    - [datetime] values are [Z], a count of microseconds (the resolution of
      [datetime.now()]); a [timedelta] is their difference and
      [total_seconds()] is that difference divided by 10^6.
    - Python floats are IEEE 754 binary64 values ([spec_float] with
      precision 53), with the correctly rounded operations of the standard
      library's specification of floating-point arithmetic.  A value
      returned by [round(x, 2)] is stored as its count of hundredths.
    - The outside world (files, process table, [psutil] counters, the clock,
      [subprocess.run]) is passed in explicitly; the two module-level globals
      of the sampler are threaded as a state record. *)

From Stdlib Require Import ZArith List Bool Ascii String Lia.
From Stdlib Require Import Floats.SpecFloat.
Import ListNotations.

Local Open Scope string_scope.
Local Open Scope Z_scope.

(* ================================================================== *)
(** ** Python string primitives *)

Module PyStr.

(** [str.isspace] on the ASCII range: TAB, LF, VT, FF, CR, FS, GS, RS, US
    and the space. *)
Definition is_space (a : ascii) : bool :=
  let n := nat_of_ascii a in
  ((9 <=? n) && (n <=? 13) || (28 <=? n) && (n <=? 32))%nat.

Definition is_digit (a : ascii) : bool :=
  let n := nat_of_ascii a in ((48 <=? n) && (n <=? 57))%nat.

(** [s.startswith(p)] *)
Fixpoint startswith (p s : string) : bool :=
  match p, s with
  | EmptyString, _ => true
  | String a p', String b s' => Ascii.eqb a b && startswith p' s'
  | String _ _, EmptyString => false
  end.

(** [sub in s] *)
Fixpoint contains (sub s : string) : bool :=
  startswith sub s ||
  match s with
  | EmptyString => false
  | String _ s' => contains sub s'
  end.

Fixpoint lstrip (s : string) : string :=
  match s with
  | String a s' => if is_space a then lstrip s' else s
  | EmptyString => EmptyString
  end.

Fixpoint rstrip (s : string) : string :=
  match s with
  | EmptyString => EmptyString
  | String a s' =>
      match rstrip s' with
      | EmptyString => if is_space a then EmptyString else String a EmptyString
      | t => String a t
      end
  end.

(** [s.strip()] *)
Definition strip (s : string) : string := rstrip (lstrip s).

(** Truth value of a string: the empty string is falsy. *)
Definition truthy (s : string) : bool :=
  match s with EmptyString => false | String _ _ => true end.

(** Truth value of an optional string ([None] is falsy). *)
Definition truthy_opt (o : option string) : bool :=
  match o with Some s => truthy s | None => false end.

Fixpoint int_acc (acc : Z) (s : string) : Z :=
  match s with
  | EmptyString => acc
  | String a s' => int_acc (10 * acc + (Z.of_nat (nat_of_ascii a) - 48)) s'
  end.

(** The number a string of decimal digits denotes. *)
Definition digits_value (s : string) : Z := int_acc 0 s.

(** The first [n] characters of [s]. *)
Fixpoint take (n : nat) (s : string) : string :=
  match n, s with
  | S n', String a s' => String a (take n' s')
  | _, _ => EmptyString
  end.

End PyStr.

(* ================================================================== *)
(** ** The fragment of Python's [re] the program uses

    A backtracking matcher in continuation-passing style.  It explores the
    alternatives in the order of Python's engine (greedy repetition tries the
    longest run first, lazy repetition the shortest, alternation the left
    branch first, [search] the leftmost start), so the first success is the
    match Python reports.  Repetition is over single-character classes, which
    is all the program's patterns need. *)

Module Re.

Inductive cset : Type :=
| CAny                      (* [.] : anything but a newline *)
| CDigit                    (* [\d] *)
| CSpace                    (* [\s] *)
| COneOf (chars : string)   (* [[abc]] *)
| CNoneOf (chars : string)  (* [[^abc]] *)
| CUnion (c1 c2 : cset).

Fixpoint mem_string (a : ascii) (s : string) : bool :=
  match s with
  | EmptyString => false
  | String b s' => Ascii.eqb a b || mem_string a s'
  end.

Fixpoint cset_mem (c : cset) (a : ascii) : bool :=
  match c with
  | CAny => negb (Ascii.eqb a "010"%char)
  | CDigit => PyStr.is_digit a
  | CSpace => PyStr.is_space a
  | COneOf s => mem_string a s
  | CNoneOf s => negb (mem_string a s)
  | CUnion c1 c2 => cset_mem c1 a || cset_mem c2 a
  end.

Inductive regex : Type :=
| Lit (s : string)          (* a literal text *)
| Cls (c : cset)            (* one character of a class *)
| Cat (r1 r2 : regex)       (* concatenation *)
| Alt (r1 r2 : regex)       (* [r1|r2] *)
| Plus (c : cset)           (* [c+], greedy *)
| LazyStar (c : cset)       (* [c*?] *)
| Grp (n : nat) (r : regex) (* capturing group number [n] *).

(** Captured groups, latest binding first. *)
Definition caps := list (nat * string).

Fixpoint group (n : nat) (c : caps) : option string :=
  match c with
  | [] => None
  | (m, s) :: c' => if Nat.eqb n m then Some s else group n c'
  end.

Definition cont := string -> caps -> option caps.

Fixpoint lit (p s : string) : option string :=
  match p, s with
  | EmptyString, _ => Some s
  | String a p', String b s' => if Ascii.eqb a b then lit p' s' else None
  | String _ _, EmptyString => None
  end.

(** [c*] greedy: consume while possible, give back one at a time. *)
Fixpoint star_greedy (c : cset) (s : string) (k : string -> option caps)
  : option caps :=
  match s with
  | String a s' =>
      if cset_mem c a then
        match star_greedy c s' k with
        | Some r => Some r
        | None => k s
        end
      else k s
  | EmptyString => k s
  end.

(** [c*?] lazy: try the continuation first, consume only on failure. *)
Fixpoint star_lazy (c : cset) (s : string) (k : string -> option caps)
  : option caps :=
  match k s with
  | Some r => Some r
  | None =>
      match s with
      | String a s' => if cset_mem c a then star_lazy c s' k else None
      | EmptyString => None
      end
  end.

Fixpoint run (r : regex) (s : string) (c : caps) (k : cont) : option caps :=
  match r with
  | Lit p => match lit p s with Some s' => k s' c | None => None end
  | Cls cs =>
      match s with
      | String a s' => if cset_mem cs a then k s' c else None
      | EmptyString => None
      end
  | Cat r1 r2 => run r1 s c (fun s' c' => run r2 s' c' k)
  | Alt r1 r2 =>
      match run r1 s c k with
      | Some res => Some res
      | None => run r2 s c k
      end
  | Plus cs =>
      match s with
      | String a s' =>
          if cset_mem cs a then star_greedy cs s' (fun t => k t c) else None
      | EmptyString => None
      end
  | LazyStar cs => star_lazy cs s (fun t => k t c)
  | Grp n r' =>
      run r' s c
        (fun s' c' =>
           k s' ((n, PyStr.take (String.length s - String.length s') s) :: c'))
  end.

(** [re.match]: anchored at the start of [s]. *)
Definition match_here (r : regex) (s : string) : option caps :=
  run r s [] (fun _ c => Some c).

(** [re.search]: the leftmost position at which the pattern matches. *)
Fixpoint search (r : regex) (s : string) : option caps :=
  match match_here r s with
  | Some c => Some c
  | None =>
      match s with
      | String _ s' => search r s'
      | EmptyString => None
      end
  end.

(** [m.group(n)] of a group that took part in the match (every group of
    the program's patterns does). *)
Definition group_str (n : nat) (c : caps) : string :=
  match group n c with Some s => s | None => EmptyString end.

End Re.

(* ================================================================== *)
(** ** Exceptions

    Every public operation of the program wraps its body in
    [try: ... except Exception as e:].  A body is a computation that either
    raises or returns; [try_except] is the handler. *)

Module Exn.

(** An exception: its class name and [str(e)]. *)
Record exn : Type := mk_exn { exn_type : string; exn_msg : string }.

Definition M (A : Type) : Type := (exn + A)%type.

Definition ret {A} (a : A) : M A := inr a.
Definition raise {A} (e : exn) : M A := inl e.

Definition bind {A B} (m : M A) (f : A -> M B) : M B :=
  match m with
  | inl e => inl e
  | inr a => f a
  end.

(** [try: body / except Exception as e: handler(e)] *)
Definition try_except {A} (body : M A) (handler : exn -> A) : A :=
  match body with
  | inl e => handler e
  | inr a => a
  end.

End Exn.

Notation "x <- m ;; k" := (Exn.bind m (fun x => k))
  (at level 61, m at next level, right associativity).

(* ================================================================== *)
(** ** [int] of a string of digits *)

Module PyInt.

(** [sys.int_info.default_max_str_digits] *)
Definition MAX_STR_DIGITS : nat := 4300.

(** [int(s)] for a string of decimal digits, as the patterns capture them:
    the conversion raises [ValueError] when the string has more digits than
    the limit (leading zeros count). *)
Definition int (s : string) : Exn.M Z :=
  if (MAX_STR_DIGITS <? String.length s)%nat then
    Exn.raise (Exn.mk_exn "ValueError"
                 "Exceeds the limit (4300 digits) for integer string conversion")
  else Exn.ret (PyStr.digits_value s).

End PyInt.

(* ================================================================== *)
(** ** Python floats: binary64 *)

Module Py64.

Definition prec : Z := 53.
Definition emax : Z := 1024.

Definition float := spec_float.

(** [float(n)]: the nearest binary64 value, ties to even; an infinity when
    [n] is beyond the range. *)
Definition of_int (n : Z) : float := binary_normalize prec emax n 0 false.

(** [a / b] for two integers, [b <> 0]: the exact quotient correctly
    rounded; an infinity when it is beyond the range. *)
Definition true_div (a b : Z) : float :=
  match a with
  | 0 => S754_zero (b <? 0)
  | _ =>
      let '(m, e, l) := SFdiv_core_binary prec emax (Z.abs a) 0 (Z.abs b) 0 in
      binary_round_aux prec emax (xorb (a <? 0) (b <? 0)) m e l
  end.

(** [x / y] and [x * y] for two floats. *)
Definition div (x y : float) : float := SFdiv prec emax x y.
Definition mul (x y : float) : float := SFmul prec emax x y.

Definition is_finite (x : float) : bool :=
  match x with
  | S754_zero _ | S754_finite _ _ _ => true
  | S754_infinity _ | S754_nan => false
  end.

(** [int(x)] for a finite [x]: truncation toward zero. *)
Definition trunc (x : float) : Z :=
  match x with
  | S754_finite s m e =>
      let v := Z.shiftl (Zpos m) e in if s then - v else v
  | _ => 0
  end.

(** [num / den] rounded to the nearest integer, ties to even ([den > 0]). *)
Definition round_half_even (num den : Z) : Z :=
  let q := num / den in
  let r := num mod den in
  if 2 * r <? den then q
  else if den <? 2 * r then q + 1
  else if Z.even q then q else q + 1.

(** The count of hundredths [n] of [round(x, 2)] for a finite [x]: the
    exact value of [x] rounded to two decimals, ties to even; the float
    returned is the one nearest to [n / 100]. *)
Definition hundredths (x : float) : Z :=
  match x with
  | S754_finite s m e =>
      let n := if 0 <=? e then Zpos m * 2 ^ e * 100
               else round_half_even (Zpos m * 100) (2 ^ (- e)) in
      if s then - n else n
  | _ => 0
  end.

(** What [round(x, 2)] returns: a count of hundredths, or [x] itself when
    [x] is an infinity or a NaN. *)
Inductive rounded : Type :=
| Hundredths (n : Z)
| Unrounded (x : float).

Definition round2 (x : float) : rounded :=
  if is_finite x then Hundredths (hundredths x) else Unrounded x.

(** [a / b] as Python evaluates it on integers: division by zero and a
    quotient beyond the float range raise. *)
Definition true_div_checked (a b : Z) : Exn.M float :=
  if b =? 0 then
    Exn.raise (Exn.mk_exn "ZeroDivisionError" "division by zero")
  else
    let x := true_div a b in
    if is_finite x then Exn.ret x
    else Exn.raise (Exn.mk_exn "OverflowError"
                      "integer division result too large for a float").

End Py64.

Coercion Py64.Hundredths : Z >-> Py64.rounded.

(* ================================================================== *)
(** ** LogTailReader: [parse_log_file] *)

Module LogTail.

(** What [os.path.exists] and [open(...).readlines()] observe of a path:
    the file is absent, present but failing to open or decode, or readable
    as a sequence of lines (each with its line terminator). *)
Inductive file : Type :=
| Absent
| Unreadable (e : Exn.exn)
| Lines (lines : list string).

Definition filesystem := string -> file.

(** [l[start:]] with Python's treatment of negative and out-of-range
    indices. *)
Definition slice_from {A} (start : Z) (l : list A) : list A :=
  let n := Z.of_nat (List.length l) in
  let i := if start <? 0 then Z.max (n + start) 0 else Z.min start n in
  skipn (Z.to_nat i) l.

Definition exists_ (fs : filesystem) (p : string) : bool :=
  match fs p with Absent => false | _ => true end.

Definition readlines (fs : filesystem) (p : string) : Exn.M (list string) :=
  match fs p with
  | Lines ls => Exn.ret ls
  | Unreadable e => Exn.raise e
  | Absent => Exn.raise (Exn.mk_exn "FileNotFoundError" p)
  end.

(** The list [logs] is only appended to once [readlines] has returned, so
    the handler finds it empty. *)
Definition parse_log_file (fs : filesystem) (file_path : string)
    (max_lines : Z) : list string :=
  Exn.try_except
    (if exists_ fs file_path then
       lines <- readlines fs file_path ;;
       Exn.ret (map PyStr.strip (slice_from (- max_lines) lines))
     else Exn.ret [])
    (fun _ => []).

End LogTail.

Definition SYNC_LOG_FILE : string := "/var/log/telegram-files-sync.log".
Definition RCLONE_LOG_FILE : string := "/var/log/rclone-sync.log".

(* ================================================================== *)
(** ** Sync-log aggregation: [get_sync_stats] *)

Module Sync.
Import Re.

Record recent_file : Type := mk_recent { rf_name : string; rf_action : string }.

Record sync_stats : Type := mk_stats {
  total_synced : Z;
  total_size_mb : Z;
  success_count : Z;
  error_count : Z;
  last_sync : option string;
  recent_files : list recent_file
}.

Definition init_stats : sync_stats := mk_stats 0 0 0 0 None [].

(** [r'已移动 (\d+)MB.*?(\d+) 个文件'] *)
Definition moved_re : regex :=
  Cat (Lit "已移动 ")
    (Cat (Grp 1 (Plus CDigit))
       (Cat (Lit "MB")
          (Cat (LazyStar CAny) (Cat (Grp 2 (Plus CDigit)) (Lit " 个文件"))))).

(** [r'\[([^\]]+)\]'] *)
Definition time_re : regex :=
  Cat (Lit "[") (Cat (Grp 1 (Plus (CNoneOf "]"))) (Lit "]")).

(** [r': ([^:]+): (Copied|Moved)'] *)
Definition done_re : regex :=
  Cat (Lit ": ")
    (Cat (Grp 1 (Plus (CNoneOf ":")))
       (Cat (Lit ": ") (Grp 2 (Alt (Lit "Copied") (Lit "Moved"))))).

Definition is_success (log : string) : bool := PyStr.contains "同步成功" log.
Definition is_error (log : string) : bool := PyStr.contains "ERROR" log.

(** [time_match.group(1)], when the pattern is found in the line. *)
Definition time_match (log : string) : option string :=
  match search time_re log with
  | Some c => Some (group_str 1 c)
  | None => None
  end.

(** The part of the loop body guarded by the success marker: the record as
    the line leaves it and, when a conversion raised, the exception.  The
    counter is incremented before the conversions, so it is in the record
    the handler returns. *)
Definition success_part (st : sync_stats) (log : string)
  : sync_stats * option Exn.exn :=
  let st := mk_stats (total_synced st) (total_size_mb st)
              (success_count st + 1) (error_count st)
              (last_sync st) (recent_files st) in
  let time_part (st : sync_stats) : sync_stats :=
    match time_match log with
    | Some t =>
        if negb (PyStr.truthy_opt (last_sync st)) then
          mk_stats (total_synced st) (total_size_mb st)
            (success_count st) (error_count st) (Some t) (recent_files st)
        else st
    | None => st
    end in
  match search moved_re log with
  | Some c =>
      match PyInt.int (group_str 1 c) with
      | inl e => (st, Some e)
      | inr size_mb =>
          match PyInt.int (group_str 2 c) with
          | inl e => (st, Some e)
          | inr file_count =>
              (time_part
                 (mk_stats (total_synced st + file_count)
                    (total_size_mb st + size_mb)
                    (success_count st) (error_count st)
                    (last_sync st) (recent_files st)), None)
          end
      end
  | None => (time_part st, None)
  end.

(** The body of the loop over the sync log. *)
Definition sync_step (st : sync_stats) (log : string)
  : sync_stats * option Exn.exn :=
  match (if is_success log then success_part st log else (st, None)) with
  | (st, Some e) => (st, Some e)
  | (st, None) =>
      (if is_error log then
         mk_stats (total_synced st) (total_size_mb st)
           (success_count st) (error_count st + 1)
           (last_sync st) (recent_files st)
       else st, None)
  end.

(** The loop over the sync log: it stops at the first line that raises. *)
Fixpoint sync_loop (logs : list string) (st : sync_stats)
  : sync_stats * option Exn.exn :=
  match logs with
  | [] => (st, None)
  | log :: rest =>
      match sync_step st log with
      | (st', Some e) => (st', Some e)
      | (st', None) => sync_loop rest st'
      end
  end.

(** The entry a transfer-log line contributes to [recent_files], if any. *)
Definition completion (log : string) : option recent_file :=
  if PyStr.contains "INFO" log
     && (PyStr.contains "Copied" log || PyStr.contains "Moved" log)
  then
    match search done_re log with
    | Some c => Some (mk_recent (PyStr.strip (group_str 1 c)) (group_str 2 c))
    | None => None
    end
  else None.

(** The body of the loop over the reversed transfer log. *)
Definition rclone_step (st : sync_stats) (log : string) : sync_stats :=
  match completion log with
  | Some entry =>
      if (List.length (recent_files st) <? 10)%nat then
        mk_stats (total_synced st) (total_size_mb st)
          (success_count st) (error_count st) (last_sync st)
          (recent_files st ++ [entry])
      else st
  | None => st
  end.

(** [get_sync_stats], given the logs the two tail reads return: when the
    first loop raised, the handler returns the record as it stands and the
    loop over the transfer log is not run. *)
Definition sync_stats_of (logs rclone_logs : list string) : sync_stats :=
  match sync_loop logs init_stats with
  | (st, Some _) => st
  | (st, None) => fold_left rclone_step (rev rclone_logs) st
  end.

Definition get_sync_stats (fs : LogTail.filesystem) : sync_stats :=
  sync_stats_of
    (LogTail.parse_log_file fs SYNC_LOG_FILE 500)
    (LogTail.parse_log_file fs RCLONE_LOG_FILE 100).

End Sync.

(* ================================================================== *)
(** ** RateSampler: [get_network_stats] *)

Module Net.

(** The two fields of [psutil.net_io_counters()] the program reads. *)
Record net_io : Type := mk_net_io { bytes_sent : Z; bytes_recv : Z }.

(** The module-level globals [_last_net_io] and [_last_net_io_time]. *)
Record sampler : Type := mk_sampler {
  last_net_io : option net_io;
  last_net_io_time : option Z
}.

Definition initial : sampler := mk_sampler None None.

(** The returned dictionary.  The [_gb] and [_mbps] fields are counts of
    hundredths. *)
Record net_stats : Type := mk_net_stats {
  total_sent : Z;
  total_recv : Z;
  total_sent_gb : Z;
  total_recv_gb : Z;
  upload_speed : Z;
  download_speed : Z;
  upload_speed_mbps : Z;
  download_speed_mbps : Z
}.

Definition zero_stats : net_stats := mk_net_stats 0 0 0 0 0 0 0 0.

(** [(current_time - last_time).total_seconds()] for a difference of
    [elapsed_us] microseconds: the integer count divided by [10**6]. *)
Definition total_seconds (elapsed_us : Z) : Py64.float :=
  Py64.true_div elapsed_us 1000000.

(** [delta / time_delta]: the integer difference of two counters, converted
    to a float, divided by the elapsed seconds. *)
Definition speed (delta elapsed_us : Z) : Py64.float :=
  Py64.div (Py64.of_int delta) (total_seconds elapsed_us).

(** [int(delta / time_delta)] *)
Definition rate (delta elapsed_us : Z) : Z :=
  Py64.trunc (speed delta elapsed_us).

(** [round(delta / time_delta * 8 / (1024 * 1024), 2)] *)
Definition rate_mbps (delta elapsed_us : Z) : Z :=
  Py64.hundredths
    (Py64.div (Py64.mul (speed delta elapsed_us) (Py64.of_int 8))
       (Py64.of_int (1024 * 1024))).

(** [round(bytes / (1024**3), 2)] *)
Definition gb (bytes : Z) : Z :=
  Py64.hundredths (Py64.true_div bytes (1024 ^ 3)).

(** The body of the [try]: it returns the dictionary and the new value of
    the globals, or raises with the globals untouched.  [counters] is what
    [psutil.net_io_counters()] does, [now] what [datetime.now()]
    returns.  [time_delta > 0] is decided on the count of microseconds,
    which is positive exactly when [total_seconds()] is.  The counters are
    the kernel's 64-bit counters and the instants lie within [datetime]'s
    range: every float computed from them is finite, and no conversion is
    modelled as raising. *)
Definition sample (st : sampler) (counters : Exn.M net_io) (now : Z)
  : Exn.M (net_stats * sampler) :=
  current_net_io <- counters ;;
  let current_time := now in
  let stats :=
    mk_net_stats
      (bytes_sent current_net_io) (bytes_recv current_net_io)
      (gb (bytes_sent current_net_io))
      (gb (bytes_recv current_net_io))
      0 0 0 0 in
  let stats :=
    match last_net_io st, last_net_io_time st with
    | Some last, Some last_time =>
        let time_delta := current_time - last_time in
        if 0 <? time_delta then
          let dsent := bytes_sent current_net_io - bytes_sent last in
          let drecv := bytes_recv current_net_io - bytes_recv last in
          mk_net_stats
            (total_sent stats) (total_recv stats)
            (total_sent_gb stats) (total_recv_gb stats)
            (rate dsent time_delta) (rate drecv time_delta)
            (rate_mbps dsent time_delta) (rate_mbps drecv time_delta)
        else stats
    | _, _ => stats
    end in
  Exn.ret (stats, mk_sampler (Some current_net_io) (Some current_time)).

(** [get_network_stats]: the result and the globals after the call. *)
Definition get_network_stats (st : sampler) (counters : Exn.M net_io)
    (now : Z) : net_stats * sampler :=
  Exn.try_except (sample st counters now) (fun _ => (zero_stats, st)).

End Net.

(* ================================================================== *)
(** ** ServiceStatusProbe: [get_service_status] *)

Module Service.
Import Re.

(** The part of [subprocess.CompletedProcess] the program reads. *)
Record completed : Type := mk_completed { returncode : Z; stdout : string }.

(** [subprocess.run(argv, capture_output=True, text=True, timeout=t)]:
    it returns, or raises ([TimeoutExpired] when the timeout elapses,
    [FileNotFoundError] / [OSError] when the process cannot be started). *)
Definition runner := list string -> Z -> Exn.M completed.

Inductive service_status : Type :=
| Probed (active : bool) (status : string) (pid : option Z)
         (memory uptime : string)
| Degraded (active : bool) (status : string) (error : string).

Definition ss_active (s : service_status) : bool :=
  match s with Probed a _ _ _ _ => a | Degraded a _ _ => a end.

Definition ss_status (s : service_status) : string :=
  match s with Probed _ st _ _ _ => st | Degraded _ st _ => st end.

Definition ss_error (s : service_status) : option string :=
  match s with Probed _ _ _ _ _ => None | Degraded _ _ e => Some e end.

(** [r'Main PID: (\d+)'] *)
Definition pid_re : regex := Cat (Lit "Main PID: ") (Grp 1 (Plus CDigit)).

(** [r'Memory: ([\d.]+)([KMG])'] *)
Definition mem_re : regex :=
  Cat (Lit "Memory: ")
    (Cat (Grp 1 (Plus (CUnion CDigit (COneOf ".")))) (Grp 2 (Cls (COneOf "KMG")))).

(** [r'Active: active \([^)]+\) since ([^;]+);'] *)
Definition uptime_re : regex :=
  Cat (Lit "Active: active (")
    (Cat (Plus (CNoneOf ")"))
       (Cat (Lit ") since ") (Cat (Grp 1 (Plus (CNoneOf ";"))) (Lit ";")))).

Definition is_active_argv (service_name : string) : list string :=
  ["systemctl"; "is-active"; service_name].

Definition status_argv (service_name : string) : list string :=
  ["systemctl"; "status"; service_name; "--no-pager"].

Definition probe (run : runner) (service_name : string)
  : Exn.M service_status :=
  result <- run (is_active_argv service_name) 5 ;;
  let is_active := String.eqb (PyStr.strip (stdout result)) "active" in
  result <- run (status_argv service_name) 5 ;;
  let status_text := stdout result in
  pid <- match search pid_re status_text with
         | Some c => n <- PyInt.int (group_str 1 c) ;; Exn.ret (Some n)
         | None => Exn.ret None
         end ;;
  let memory :=
    match search mem_re status_text with
    | Some c => (group_str 1 c ++ group_str 2 c)%string
    | None => "N/A"
    end in
  let uptime :=
    match search uptime_re status_text with
    | Some c => group_str 1 c
    | None => "N/A"
    end in
  Exn.ret (Probed is_active (if is_active then "running" else "stopped")
             pid memory uptime).

Definition get_service_status (run : runner) (service_name : string)
  : service_status :=
  Exn.try_except (probe run service_name)
    (fun e => Degraded false "unknown" (Exn.exn_msg e)).

End Service.

(* ================================================================== *)
(** ** ProgressTracker: [get_upload_progress] *)

Module Progress.
Import Re.

(** One entry of [psutil.process_iter(['pid', 'name', 'cmdline'])]:
    [proc.info].  A field psutil could not read (access denied) is
    [None]. *)
Record proc_info : Type := mk_proc {
  pid : Z;
  name : option string;
  cmdline : option (list string)
}.

Record upload_progress : Type := mk_progress {
  is_uploading : bool;
  current_file : option string;
  progress : Z;
  speed : string;
  status : string
}.

(** The loop variables [current_file], [progress], [speed]. *)
Record scan_state : Type := mk_scan {
  sc_file : option string;
  sc_progress : option Z;
  sc_speed : option string
}.

Definition scan_init : scan_state := mk_scan None None None.

(** [r'Transferred:\s+([^,]+),\s+(\d+)%,\s+([^,]+)'] *)
Definition transferred_re : regex :=
  Cat (Lit "Transferred:")
    (Cat (Plus CSpace)
       (Cat (Grp 1 (Plus (CNoneOf ",")))
          (Cat (Lit ",")
             (Cat (Plus CSpace)
                (Cat (Grp 2 (Plus CDigit))
                   (Cat (Lit "%,")
                      (Cat (Plus CSpace) (Grp 3 (Plus (CNoneOf ",")))))))))).

(** [r': ([^:]+):'] *)
Definition file_re : regex :=
  Cat (Lit ": ") (Cat (Grp 1 (Plus (CNoneOf ":"))) (Lit ":")).

(** The digits of the percentage and the speed of a progress line. *)
Definition transferred_match (log : string) : option (string * string) :=
  if PyStr.contains "Transferred:" log then
    match search transferred_re log with
    | Some c => Some (group_str 2 c, PyStr.strip (group_str 3 c))
    | None => None
    end
  else None.

(** What a line offers as progress and speed, if it is a progress line: the
    percentage as the number its digits denote. *)
Definition transferred (log : string) : option (Z * string) :=
  match transferred_match log with
  | Some (d, s) => Some (PyStr.digits_value d, s)
  | None => None
  end.

(** What a line offers as current file name, if anything. *)
Definition file_of (log : string) : option string :=
  if PyStr.contains "INFO" log
     && (PyStr.contains "Copied" log || PyStr.contains "Moved" log
         || PyStr.contains ":" log)
  then
    match search file_re log with
    | Some c => Some (PyStr.strip (group_str 1 c))
    | None => None
    end
  else None.

(** The loop variables after a line on which no conversion raises. *)
Definition scan_step (st : scan_state) (log : string) : scan_state :=
  let st :=
    match transferred log with
    | Some (p, s) => mk_scan (sc_file st) (Some p) (Some s)
    | None => st
    end in
  match file_of log with
  | Some f =>
      if negb (PyStr.truthy_opt (sc_file st)) then
        mk_scan (Some f) (sc_progress st) (sc_speed st)
      else st
  | None => st
  end.

(** The loop variables after a scan in which no conversion raises. *)
Definition scan (logs : list string) : scan_state :=
  fold_left scan_step (rev logs) scan_init.

(** The body of the loop over the reversed log tail: [int] of the
    percentage can raise. *)
Definition scan_line (st : scan_state) (log : string) : Exn.M scan_state :=
  st <- match transferred_match log with
        | Some (d, s) =>
            p <- PyInt.int d ;;
            Exn.ret (mk_scan (sc_file st) (Some p) (Some s))
        | None => Exn.ret st
        end ;;
  Exn.ret
    (match file_of log with
     | Some f =>
         if negb (PyStr.truthy_opt (sc_file st)) then
           mk_scan (Some f) (sc_progress st) (sc_speed st)
         else st
     | None => st
     end).

Fixpoint scan_lines (logs : list string) (st : scan_state)
  : Exn.M scan_state :=
  match logs with
  | [] => Exn.ret st
  | log :: rest => st' <- scan_line st log ;; scan_lines rest st'
  end.

(** The loop over the reversed log tail. *)
Definition scan_tail (logs : list string) : Exn.M scan_state :=
  scan_lines (rev logs) scan_init.

(** Truth value of [progress]: [None] and [0] are falsy. *)
Definition truthy_progress (p : option Z) : bool :=
  match p with Some n => negb (n =? 0) | None => false end.

Definition found (st : scan_state) : bool :=
  PyStr.truthy_opt (sc_file st) || truthy_progress (sc_progress st).

(** [x or d] for an optional string [x]. *)
Definition str_or (x : option string) (d : string) : string :=
  match x with
  | Some s => if PyStr.truthy s then s else d
  | None => d
  end.

(** [x or 0] for an optional integer [x]. *)
Definition int_or_0 (x : option Z) : Z :=
  match x with Some n => n | None => 0 end.

Definition uploading (st : scan_state) : upload_progress :=
  mk_progress true
    (Some (str_or (sc_file st) "处理中..."))
    (int_or_0 (sc_progress st))
    (str_or (sc_speed st) "N/A")
    "正在上传".

Definition idle : upload_progress := mk_progress false None 0 "N/A" "空闲".
Definition unknown : upload_progress := mk_progress false None 0 "N/A" "未知".

Definition str_in (x : string) (l : list string) : bool :=
  existsb (String.eqb x) l.

Definition is_rclone (p : proc_info) : bool :=
  match name p with Some n => String.eqb n "rclone" | None => false end.

Definition transfer_args (cl : list string) : bool :=
  str_in "move" cl || str_in "copy" cl || str_in "sync" cl.

(** The loop over the process table and the fall-through return.  Testing
    ['move' in cmdline] on a command line psutil reported as [None] raises
    [TypeError]. *)
Fixpoint scan_procs (fs : LogTail.filesystem) (procs : list proc_info)
  : Exn.M upload_progress :=
  match procs with
  | [] => Exn.ret idle
  | proc :: rest =>
      if is_rclone proc then
        cl <- match cmdline proc with
              | Some cl => Exn.ret cl
              | None =>
                  Exn.raise (Exn.mk_exn "TypeError"
                               "argument of type 'NoneType' is not iterable")
              end ;;
        if transfer_args cl then
          st <- scan_tail (LogTail.parse_log_file fs RCLONE_LOG_FILE 50) ;;
          if found st then Exn.ret (uploading st) else scan_procs fs rest
        else scan_procs fs rest
      else scan_procs fs rest
  end.

Definition get_upload_progress (fs : LogTail.filesystem)
    (procs : list proc_info) : upload_progress :=
  Exn.try_except (scan_procs fs procs) (fun _ => unknown).

End Progress.

(* ================================================================== *)
(** ** Reference notions used to state the properties *)

(** The entries [f] selects from [l], in the order of [l]. *)
Fixpoint filter_map {A B} (f : A -> option B) (l : list A) : list B :=
  match l with
  | [] => []
  | x :: l' =>
      match f x with
      | Some y => y :: filter_map f l'
      | None => filter_map f l'
      end
  end.

(** The timestamp of the earliest success line that carries one. *)
Fixpoint first_success_time (logs : list string) : option string :=
  match logs with
  | [] => None
  | log :: rest =>
      if Sync.is_success log then
        match Sync.time_match log with
        | Some t => Some t
        | None => first_success_time rest
        end
      else first_success_time rest
  end.

(** The progress line the scan of [get_upload_progress] would keep if it
    stopped at its first match: the most recent one of the tail. *)
Definition most_recent_transfer (logs : list string) : option (Z * string) :=
  hd_error (filter_map Progress.transferred (rev logs)).

(** A process that makes [get_upload_progress] look at the log: [rclone]
    run with a [move], [copy] or [sync] argument. *)
Definition transfer_proc (p : Progress.proc_info) : bool :=
  Progress.is_rclone p &&
  match Progress.cmdline p with
  | Some cl => Progress.transfer_args cl
  | None => false
  end.

(* ================================================================== *)
(** ** Sample inputs *)

Module Samples.

Definition fs_of (sync rclone : LogTail.file) : LogTail.filesystem :=
  fun p =>
    if String.eqb p SYNC_LOG_FILE then sync
    else if String.eqb p RCLONE_LOG_FILE then rclone
    else LogTail.Absent.

Definition nl : string := String "010"%char EmptyString.

Definition line (s : string) : string := (s ++ nl)%string.

Definition sync_log : LogTail.file :=
  LogTail.Lines
    [ line "[2024-01-01 10:00] 同步成功: 已移动 50MB, 共 3 个文件";
      line "[2024-01-01 10:30] ERROR: 同步失败";
      line "[2024-01-01 11:00] 同步成功: 已移动 7MB, 共 1 个文件" ].

Definition rclone_log : LogTail.file :=
  LogTail.Lines
    [ line "Transferred:   	    1 GiB / 2 GiB, 10%, 1 MiB/s, ETA 15m";
      line "2024/01/01 10:00:00 INFO  : a.mkv: Copied (new)";
      line "Transferred:   	    1.8 GiB / 2 GiB, 90%, 2 MiB/s, ETA 1m" ].

Definition rclone_move : Progress.proc_info :=
  Progress.mk_proc 4242 (Some "rclone")
    (Some ["rclone"; "move"; "/mnt/tg/telegram-files/data/downloads";
           "gd:/Media/tg files/data"]).

Definition timeout_runner : Service.runner :=
  fun argv t =>
    Exn.raise (Exn.mk_exn "TimeoutExpired" "Command timed out after 5 seconds").

(** [n] nines. *)
Fixpoint nines (n : nat) : string :=
  match n with
  | O => EmptyString
  | S n' => String "9"%char (nines n')
  end.

(** A sync log whose first success line reports a size of 4301 digits. *)
Definition oversize_sync_log : LogTail.file :=
  LogTail.Lines
    [ line ("[2024-01-01 10:00] 同步成功: 已移动 " ++ nines 4301
            ++ "MB, 共 3 个文件");
      line "[2024-01-01 10:30] ERROR: 同步失败";
      line "[2024-01-01 11:00] 同步成功: 已移动 7MB, 共 1 个文件" ].

(** A transfer log with twelve completion lines, oldest first. *)
Definition completions_log : LogTail.file :=
  LogTail.Lines
    [ line "2024/01/01 10:00:01 INFO  : f01.mkv: Copied (new)";
      line "2024/01/01 10:00:02 INFO  : f02.mkv: Moved (server-side)";
      line "2024/01/01 10:00:03 INFO  : f03.mkv: Copied (new)";
      line "2024/01/01 10:00:04 INFO  : f04.mkv: Copied (new)";
      line "2024/01/01 10:00:05 NOTICE: f05.mkv: Copied (new)";
      line "2024/01/01 10:00:06 INFO  : f06.mkv: Copied (new)";
      line "2024/01/01 10:00:07 INFO  : f07.mkv: Deleted";
      line "2024/01/01 10:00:08 INFO  : f08.mkv: Copied (new)";
      line "2024/01/01 10:00:09 INFO  : f09.mkv: Moved (server-side)";
      line "2024/01/01 10:00:10 INFO  : f10.mkv: Copied (new)";
      line "2024/01/01 10:00:11 INFO  : f11.mkv: Copied (new)";
      line "2024/01/01 10:00:12 INFO  : f12.mkv: Copied (new)";
      line "2024/01/01 10:00:13 INFO  : f13.mkv: Copied (new)";
      line "2024/01/01 10:00:14 INFO  : f14.mkv: Moved (server-side)" ].

Definition rclone_copy : Progress.proc_info :=
  Progress.mk_proc 77 (Some "rclone") (Some ["rclone"; "copy"; "a"; "gd:b"]).

End Samples.

(* ================================================================== *)
(** ** Configuration file: [read_config] *)

Module Config.

(** What [open(CONFIG_FILE)] and the iteration over the file observe: the
    file cannot be opened, or it yields [lines] and then either ends or
    fails ([stopped]).  The handler returns the dictionary as built so
    far. *)
Inductive source : Type :=
| NoOpen (e : Exn.exn)
| Read (lines : list string) (stopped : option Exn.exn).

(** A [dict] with string keys, in insertion order. *)
Definition dict := list (string * string).

Fixpoint dict_get (k : string) (d : dict) : option string :=
  match d with
  | [] => None
  | (k', v) :: d' => if String.eqb k k' then Some v else dict_get k d'
  end.

(** [d[k] = v]: an existing key keeps its place and takes the new value, a
    new key goes to the end. *)
Fixpoint dict_set (k v : string) (d : dict) : dict :=
  match d with
  | [] => [(k, v)]
  | (k', v') :: d' =>
      if String.eqb k k' then (k', v) :: d' else (k', v') :: dict_set k v d'
  end.

(** [s.split('=', 1)] when ['=' in s]: the text before the first ['='] and
    the text after it. *)
Fixpoint split_eq (s : string) : option (string * string) :=
  match s with
  | EmptyString => None
  | String a s' =>
      if Ascii.eqb a "="%char then Some (EmptyString, s')
      else
        match split_eq s' with
        | Some (k, v) => Some (String a k, v)
        | None => None
        end
  end.

Fixpoint lstrip_chars (chars s : string) : string :=
  match s with
  | String a s' => if Re.mem_string a chars then lstrip_chars chars s' else s
  | EmptyString => EmptyString
  end.

Fixpoint rstrip_chars (chars s : string) : string :=
  match s with
  | EmptyString => EmptyString
  | String a s' =>
      match rstrip_chars chars s' with
      | EmptyString =>
          if Re.mem_string a chars then EmptyString else String a EmptyString
      | t => String a t
      end
  end.

(** [s.strip(chars)] *)
Definition strip_chars (chars s : string) : string :=
  rstrip_chars chars (lstrip_chars chars s).

(** The characters the value is stripped of: the double and the single
    quote. *)
Definition quotes : string := String "034"%char (String "039"%char EmptyString).

(** The key and value a line assigns, if it assigns any. *)
Definition assignment (raw : string) : option (string * string) :=
  let line := PyStr.strip raw in
  if negb (PyStr.truthy line) || PyStr.startswith "#" line then None
  else
    match split_eq line with
    | Some (key, value) =>
        Some (PyStr.strip key, strip_chars quotes (PyStr.strip value))
    | None => None
    end.

(** The body of the loop over the lines of the file. *)
Definition config_step (config : dict) (raw : string) : dict :=
  match assignment raw with
  | Some (key, value) => dict_set key value config
  | None => config
  end.

Definition read_config (src : source) : dict :=
  match src with
  | NoOpen _ => []
  | Read lines _ => fold_left config_step lines []
  end.

End Config.

(* ================================================================== *)
(** ** Remote storage statistics: [get_cloud_stats], [get_cloud_quota] *)

Module Cloud.

(** A value of the decoded JSON document: an integer, as [rclone] prints
    counts and byte sizes, or anything else that is not a number ([null], a
    string, an array, an object) with its truth value.  Fractional numbers
    and booleans are outside the model. *)
Inductive jvalue : Type :=
| JInt (n : Z)
| JOther (truthy : bool) (text : string).

(** What [json.loads] returns: an object, seen through its [get], or a
    document that is not an object. *)
Inductive json : Type :=
| JObject (fields : string -> option jvalue)
| JNotObject (text : string).

Definition decoder := string -> Exn.M json.

(** [data.get(key, 0)] *)
Definition get (data : json) (key : string) : Exn.M jvalue :=
  match data with
  | JObject fields =>
      Exn.ret (match fields key with Some v => v | None => JInt 0 end)
  | JNotObject _ =>
      Exn.raise (Exn.mk_exn "AttributeError" "object has no attribute 'get'")
  end.

Definition truthy (v : jvalue) : bool :=
  match v with
  | JInt n => negb (n =? 0)
  | JOther t _ => t
  end.

(** The integer of a value used in arithmetic. *)
Definition number (v : jvalue) : Exn.M Z :=
  match v with
  | JInt n => Exn.ret n
  | JOther _ _ =>
      Exn.raise (Exn.mk_exn "TypeError" "unsupported operand type(s) for /")
  end.

(** [round(v / (1024**3), 2)]: the division raises [OverflowError] when the
    quotient is beyond the float range. *)
Definition gb (v : jvalue) : Exn.M Z :=
  n <- number v ;;
  x <- Py64.true_div_checked n (1024 ^ 3) ;;
  Exn.ret (Py64.hundredths x).

(** [round(v / (1024**3), 2) if v else 0] *)
Definition gb_or_0 (v : jvalue) : Exn.M Z :=
  if truthy v then gb v else Exn.ret 0.

Record cloud_stats : Type := mk_cloud_stats {
  total_files : jvalue;
  total_size : jvalue;
  total_size_gb : Z
}.

Definition zero_cloud_stats : cloud_stats := mk_cloud_stats (JInt 0) (JInt 0) 0.

Definition size_argv : list string :=
  ["rclone"; "size"; "gd:/Media/tg files/data"; "--json"].

(** The body of the [try] of [get_cloud_stats]: [None] is falling out of
    the [if] to the final [return]. *)
Definition cloud_stats_body (run : Service.runner) (loads : decoder)
  : Exn.M (option cloud_stats) :=
  result <- run size_argv 10 ;;
  if Service.returncode result =? 0 then
    data <- loads (Service.stdout result) ;;
    count <- get data "count" ;;
    bytes <- get data "bytes" ;;
    size_gb <- gb bytes ;;
    Exn.ret (Some (mk_cloud_stats count bytes size_gb))
  else Exn.ret None.

Definition get_cloud_stats (run : Service.runner) (loads : decoder)
  : cloud_stats :=
  match Exn.try_except (cloud_stats_body run loads) (fun _ => None) with
  | Some stats => stats
  | None => zero_cloud_stats
  end.

(** The returned dictionary.  The [_gb] fields are counts of hundredths;
    [used_percent] is what [round] returned, or the integer 0. *)
Record cloud_quota : Type := mk_cloud_quota {
  total : jvalue;
  used : jvalue;
  free : jvalue;
  total_gb : Z;
  used_gb : Z;
  free_gb : Z;
  used_percent : Py64.rounded
}.

Definition zero_cloud_quota : cloud_quota :=
  mk_cloud_quota (JInt 0) (JInt 0) (JInt 0) 0 0 0 0.

Definition about_argv : list string := ["rclone"; "about"; "gd:"; "--json"].

(** [round((used / total * 100), 2) if total and used else 0]: the integer
    division raises when its quotient is beyond the float range; the product
    by 100 does not raise, it can be an infinity, which [round] returns as
    it is. *)
Definition percent (total used : jvalue) : Exn.M Py64.rounded :=
  if truthy total && truthy used then
    u <- number used ;;
    t <- number total ;;
    x <- Py64.true_div_checked u t ;;
    Exn.ret (Py64.round2 (Py64.mul x (Py64.of_int 100)))
  else Exn.ret (Py64.Hundredths 0).

Definition cloud_quota_body (run : Service.runner) (loads : decoder)
  : Exn.M (option cloud_quota) :=
  result <- run about_argv 10 ;;
  if Service.returncode result =? 0 then
    data <- loads (Service.stdout result) ;;
    total <- get data "total" ;;
    used <- get data "used" ;;
    free <- get data "free" ;;
    total_gb <- gb_or_0 total ;;
    used_gb <- gb_or_0 used ;;
    free_gb <- gb_or_0 free ;;
    used_percent <- percent total used ;;
    Exn.ret (Some (mk_cloud_quota total used free
                     total_gb used_gb free_gb used_percent))
  else Exn.ret None.

Definition get_cloud_quota (run : Service.runner) (loads : decoder)
  : cloud_quota :=
  match Exn.try_except (cloud_quota_body run loads) (fun _ => None) with
  | Some quota => quota
  | None => zero_cloud_quota
  end.

End Cloud.

(* ================================================================== *)
(** ** Sessions and credentials: [login_required], [login], [logout],
       [change_password] *)

Module Auth.

(** The dictionary [USERS]: the password of each user name. *)
Definition users := string -> option string.

Definition USERS : users :=
  fun u => if String.eqb u "admin" then Some "WZYwzy258852!" else None.

(** [USERS[u] = p] *)
Definition set_password (u p : string) (us : users) : users :=
  fun k => if String.eqb k u then Some p else us k.

(** The ['username'] entry of the Flask session, if any. *)
Definition session := option string.

Inductive body : Type :=
| Outcome (success : bool) (message : string)
| Error (error : string) (code : Z).

(** A response: the JSON body and the HTTP status. *)
Record response : Type := mk_response { payload : body; status_code : Z }.

(** [len(s)]: the number of code points, that is of the bytes of the UTF-8
    encoding that are not continuation bytes. *)
Fixpoint len (s : string) : Z :=
  match s with
  | EmptyString => 0
  | String a s' =>
      let n := nat_of_ascii a in
      (if ((128 <=? n) && (n <? 192))%nat then 0 else 1) + len s'
  end.

Definition not_logged_in : response := mk_response (Error "未登录" 401) 401.

(** The decorator: the view runs only with a user name in the session. *)
Definition login_required {S} (view : string -> S -> response * S)
    (sess : session) (st : S) : response * S :=
  match sess with
  | None => (not_logged_in, st)
  | Some username => view username st
  end.

(** [login]: [username] and [password] are [data.get(...)] of the request
    body, a JSON object whose fields, when present, are strings ([None]
    stands for an absent or null field).  Returns the response and the
    session. *)
Definition login (us : users) (sess : session)
    (username password : option string) : response * session :=
  let granted :=
    match username with
    | Some u =>
        match us u, password with
        | Some p, Some p' => String.eqb p p'
        | _, _ => false
        end
    | None => false
    end in
  if granted then (mk_response (Outcome true "登录成功") 200, username)
  else (mk_response (Outcome false "用户名或密码错误") 401, sess).

(** A field of the request body as [data.get(...)] returns it. *)
Inductive field : Type :=
| FText (s : string)   (* a string *)
| FNone                (* absent, or null *)
| FScalar              (* a number or a boolean *)
| FContainer           (* an array or an object: not hashable *).

(** What [request.json] returned: a JSON object with its two fields, or a
    document that is not an object (no [get]). *)
Inductive document : Type :=
| NotAnObject
| Object (username password : field).

Definition text_of_field (f : field) : option string :=
  match f with FText s => Some s | _ => None end.

(** [login] on the document of the request.  The view has no handler:
    an exception leaves it (Flask answers 500) and the session is as it
    was.  [data.get] raises on a document that is not an object, and
    [username in USERS] raises on a user name that is not hashable; a user
    name that is not a string is no key of [USERS], and a password that is
    not a string equals no stored password. *)
Definition login_request (us : users) (sess : session) (data : document)
  : Exn.M (response * session) :=
  match data with
  | NotAnObject =>
      Exn.raise (Exn.mk_exn "AttributeError" "object has no attribute 'get'")
  | Object FContainer _ =>
      Exn.raise (Exn.mk_exn "TypeError" "unhashable type")
  | Object username password =>
      Exn.ret (login us sess (text_of_field username) (text_of_field password))
  end.

(** [logout]: [session.pop('username', None)]. *)
Definition logout (sess : session) : response * session :=
  (mk_response (Outcome true "已登出") 200, None).

(** Rewriting the program's own source with the new password: reading the
    file, the substitution and the write either all succeed or raise. *)
Definition persister := string -> string -> Exn.M unit.

(** The view of [change_password], for the user name of the session. *)
Definition change_password_view (persist : persister)
    (old_password new_password : option string)
    (username : string) (us : users) : response * users :=
  let old_ok :=
    match us username, old_password with
    | Some p, Some p' => String.eqb p p'
    | _, _ => false
    end in
  if negb old_ok then (mk_response (Outcome false "原密码错误") 400, us)
  else
    match new_password with
    | None => (mk_response (Outcome false "新密码至少需要 6 个字符") 400, us)
    | Some np =>
        if negb (PyStr.truthy np) || (len np <? 6) then
          (mk_response (Outcome false "新密码至少需要 6 个字符") 400, us)
        else
          Exn.try_except
            (_ <- persist username np ;;
             Exn.ret
               (mk_response
                  (Outcome true "密码修改成功，建议重启服务以确保生效") 200,
                set_password username np us))
            (fun e =>
               (mk_response
                  (Outcome false ("修改失败: " ++ Exn.exn_msg e)) 500, us))
    end.

Definition change_password (persist : persister) (sess : session)
    (old_password new_password : option string) (us : users)
  : response * users :=
  login_required (change_password_view persist old_password new_password)
    sess us.

End Auth.

(* ================================================================== *)
(** ** Further reference notions *)

Fixpoint sumZ (l : list Z) : Z :=
  match l with
  | [] => 0
  | x :: l' => x + sumZ l'
  end.

(** The size in MB and the file count a sync-log line adds to the totals. *)
Definition moved_of (log : string) : option (Z * Z) :=
  if Sync.is_success log then
    match Re.search Sync.moved_re log with
    | Some c =>
        Some (PyStr.digits_value (Re.group_str 1 c),
              PyStr.digits_value (Re.group_str 2 c))
    | None => None
    end
  else None.

(** The first and the last character of a string. *)
Definition first_char (s : string) : option ascii :=
  match s with String a _ => Some a | EmptyString => None end.

Fixpoint last_char (s : string) : option ascii :=
  match s with
  | EmptyString => None
  | String a s' =>
      match last_char s' with Some b => Some b | None => Some a end
  end.

Fixpoint all_chars (p : ascii -> bool) (s : string) : bool :=
  match s with
  | EmptyString => true
  | String a s' => p a && all_chars p s'
  end.

(** A non-empty string of decimal digits. *)
Definition digits (s : string) : bool :=
  PyStr.truthy s && all_chars PyStr.is_digit s.

(** The texts a pattern matches. *)
Fixpoint text_of (r : Re.regex) (m : string) : Prop :=
  match r with
  | Re.Lit p => m = p
  | Re.Cls cs => exists a, m = String a EmptyString /\ Re.cset_mem cs a = true
  | Re.Cat r1 r2 =>
      exists m1 m2, m = (m1 ++ m2)%string /\ text_of r1 m1 /\ text_of r2 m2
  | Re.Alt r1 r2 => text_of r1 m \/ text_of r2 m
  | Re.Plus cs =>
      PyStr.truthy m = true /\ all_chars (Re.cset_mem cs) m = true
  | Re.LazyStar cs => all_chars (Re.cset_mem cs) m = true
  | Re.Grp _ r' => text_of r' m
  end.

(** The texts a pattern may bind to group [n]: those its body matches. *)
Fixpoint group_shape (r : Re.regex) (n : nat) (v : string) : Prop :=
  match r with
  | Re.Grp m r' => (n = m /\ text_of r' v) \/ group_shape r' n v
  | Re.Cat r1 r2 | Re.Alt r1 r2 => group_shape r1 n v \/ group_shape r2 n v
  | _ => False
  end.

(** The groups every match of a pattern binds. *)
Fixpoint binds (r : Re.regex) (n : nat) : Prop :=
  match r with
  | Re.Grp m r' => n = m \/ binds r' n
  | Re.Cat r1 r2 => binds r1 n \/ binds r2 n
  | Re.Alt r1 r2 => binds r1 n /\ binds r2 n
  | _ => False
  end.

(** A sync-log line on which a conversion raises: a line with the success
    marker in which the moved-size pattern is found and captures, as size or
    as file count, a number of more than 4300 digits. *)
Definition conversion_fails (log : string) : bool :=
  PyStr.contains "同步成功" log &&
  match Re.search Sync.moved_re log with
  | Some c =>
      (4300 <? String.length (Re.group_str 1 c))%nat
      || (4300 <? String.length (Re.group_str 2 c))%nat
  | None => false
  end.

(** The lines the first loop of [get_sync_stats] goes through entirely:
    those before the first line on which a conversion raises. *)
Fixpoint before_failure (logs : list string) : list string :=
  match logs with
  | [] => []
  | log :: rest =>
      if conversion_fails log then [] else log :: before_failure rest
  end.

(** A non-negative float, or a value that is no number. *)
Definition not_negative (x : Py64.float) : Prop :=
  match x with S754_finite true _ _ => False | _ => True end.

(** A non-positive float, or a value that is no number. *)
Definition not_positive (x : Py64.float) : Prop :=
  match x with S754_finite false _ _ => False | _ => True end.

(** The file name the scan of [get_upload_progress] keeps: that of the most
    recent line offering a non-empty one. *)
Definition named_file (log : string) : option string :=
  match Progress.file_of log with
  | Some f => if PyStr.truthy f then Some f else None
  | None => None
  end.

(** The value the latest assignment to [k] gives it. *)
Definition last_assigned (k : string) (lines : list string) : option string :=
  hd_error
    (filter_map
       (fun raw =>
          match Config.assignment raw with
          | Some (k', v) => if String.eqb k k' then Some v else None
          | None => None
          end)
       (rev lines)).

(* ================================================================== *)
(** * Properties *)

(** ** The matcher *)

Lemma take_pos_truthy (n : nat) (s : string) :
  (0 < n)%nat -> (0 < String.length s)%nat -> PyStr.truthy (PyStr.take n s) = true.
Proof.
  destruct n as [|n]; [lia|].
  destruct s as [|a s]; simpl; [lia|reflexivity].
Qed.

(** Whatever greedy repetition returns was returned by its continuation, on a
    suffix no longer than the input. *)
Lemma star_greedy_cont (c : Re.cset) (s : string) k r :
  Re.star_greedy c s k = Some r ->
  exists t, k t = Some r /\ (String.length t <= String.length s)%nat.
Proof.
  induction s as [|a s IH]; simpl; intros H.
  - exists EmptyString; auto.
  - destruct (Re.cset_mem c a).
    + destruct (Re.star_greedy c s k) as [r'|] eqn:E.
      * inversion H; subst r'.
        destruct (IH eq_refl) as (t & Ht & Hl); exists t; split; [exact Ht|lia].
      * exists (String a s); auto.
    + exists (String a s); auto.
Qed.

(** A timestamp captured by [\[([^\]]+)\]] is never the empty string. *)
Lemma match_here_time_truthy (s : string) (c : Re.caps) :
  Re.match_here Sync.time_re s = Some c ->
  PyStr.truthy (Re.group_str 1 c) = true.
Proof.
  unfold Re.match_here, Sync.time_re; cbn [Re.run].
  destruct (Re.lit "[" s) as [s1|]; [|discriminate].
  destruct s1 as [|a s2]; [discriminate|].
  destruct (Re.cset_mem (Re.CNoneOf "]") a); [|discriminate].
  intros H; apply star_greedy_cont in H; destruct H as (t & Ht & Hl).
  destruct (Re.lit "]" t); [|discriminate].
  inversion Ht; subst c; clear Ht.
  unfold Re.group_str; cbn [Re.group Nat.eqb].
  apply take_pos_truthy;
    [destruct (String.length t); lia | cbn [String.length]; lia].
Qed.

Lemma time_match_truthy (log t : string) :
  Sync.time_match log = Some t -> PyStr.truthy t = true.
Proof.
  unfold Sync.time_match.
  induction log as [|a log IH]; cbn [Re.search].
  - destruct (Re.match_here Sync.time_re "") eqn:E; [|discriminate].
    intros H; inversion H; subst; eapply match_here_time_truthy; eauto.
  - destruct (Re.match_here Sync.time_re (String a log)) eqn:E.
    + intros H; inversion H; subst; eapply match_here_time_truthy; eauto.
    + exact IH.
Qed.

(** ** LogTailReader *)

Lemma slice_from_tail {A} (n : Z) (l : list A) :
  0 < n ->
  exists older tail,
    l = (older ++ tail)%list /\
    Z.of_nat (List.length tail) = Z.min n (Z.of_nat (List.length l)) /\
    LogTail.slice_from (- n) l = tail.
Proof.
  intros Hn. unfold LogTail.slice_from.
  replace (- n <? 0) with true by (symmetry; apply Z.ltb_lt; lia).
  set (i := Z.to_nat (Z.max (Z.of_nat (List.length l) + - n) 0)).
  exists (firstn i l), (skipn i l).
  split; [symmetry; apply firstn_skipn|].
  split; [|reflexivity].
  rewrite length_skipn. subst i. lia.
Qed.

(** C8, on the code: a line count of zero selects the whole file, because
    [lines[-0:]] is [lines[0:]], and what is returned are the lines with
    their surrounding white space removed, not the lines as they are in the
    file. *)
Lemma parse_log_file_zero_returns_all :
  let fs := Samples.fs_of
              (LogTail.Lines [Samples.line "  first"; Samples.line "second"])
              LogTail.Absent in
  LogTail.parse_log_file fs SYNC_LOG_FILE 0 = ["first"; "second"] /\
  LogTail.parse_log_file fs SYNC_LOG_FILE 0 <> [] /\
  LogTail.parse_log_file fs SYNC_LOG_FILE 2
    <> [Samples.line "  first"; Samples.line "second"].
Proof.
  cbv zeta. split; [vm_compute; reflexivity|].
  split; intros H; vm_compute in H; discriminate H.
Qed.

(** C8, as the code has it: for a path that is absent or cannot be opened
    the result is the empty list; for a readable file and a positive
    [max_lines] the result is the trailing [min max_lines n] lines of the [n]
    lines of the file, in file order (oldest first), each stripped of leading
    and trailing white space. *)
Theorem parse_log_file_tail (fs : LogTail.filesystem) (p : string) (max_lines : Z) :
  (fs p = LogTail.Absent -> LogTail.parse_log_file fs p max_lines = []) /\
  (forall e, fs p = LogTail.Unreadable e ->
             LogTail.parse_log_file fs p max_lines = []) /\
  (forall lines,
      fs p = LogTail.Lines lines ->
      0 < max_lines ->
      exists older tail,
        lines = (older ++ tail)%list /\
        Z.of_nat (List.length tail)
          = Z.min max_lines (Z.of_nat (List.length lines)) /\
        LogTail.parse_log_file fs p max_lines = map PyStr.strip tail).
Proof.
  unfold LogTail.parse_log_file, LogTail.exists_, LogTail.readlines.
  repeat split.
  - intros ->; reflexivity.
  - intros e ->; reflexivity.
  - intros lines -> Hpos. cbn.
    destruct (slice_from_tail max_lines lines Hpos) as (older & tail & H1 & H2 & H3).
    exists older, tail. rewrite H3. auto.
Qed.

Lemma parse_log_file_tail_witness :
  let fs := Samples.fs_of Samples.sync_log LogTail.Absent in
  exists older tail,
    [ Samples.line "[2024-01-01 10:00] 同步成功: 已移动 50MB, 共 3 个文件";
      Samples.line "[2024-01-01 10:30] ERROR: 同步失败";
      Samples.line "[2024-01-01 11:00] 同步成功: 已移动 7MB, 共 1 个文件" ]
      = (older ++ tail)%list /\
    Z.of_nat (List.length tail) = Z.min 2 (Z.of_nat 3) /\
    LogTail.parse_log_file fs SYNC_LOG_FILE 2 = map PyStr.strip tail.
Proof.
  cbv zeta.
  apply (proj2 (proj2 (parse_log_file_tail
                         (Samples.fs_of Samples.sync_log LogTail.Absent)
                         SYNC_LOG_FILE 2))).
  - reflexivity.
  - lia.
Defined.

(** ** Floats: signs *)

Lemma round_aux_sign (s : bool) (m e : Z) (l : location) :
  match binary_round_aux Py64.prec Py64.emax s m e l with
  | S754_finite s' _ _ => s' = s
  | _ => True
  end.
Proof.
  unfold binary_round_aux.
  destruct (shr_fexp Py64.prec Py64.emax m e l) as [mrs' e'].
  destruct (shr_fexp Py64.prec Py64.emax _ e' loc_Exact) as [mrs'' e''].
  destruct (shr_m mrs''); [exact I| |exact I].
  destruct (Z.leb e'' _); [reflexivity|exact I].
Qed.

Lemma of_int_sign (n : Z) :
  (n <= 0 -> not_positive (Py64.of_int n)) /\
  (0 <= n -> not_negative (Py64.of_int n)).
Proof.
  unfold Py64.of_int, binary_normalize, binary_round.
  destruct n as [|p|p].
  - split; intros _; exact I.
  - destruct (shl_align p 0 _) as [mz ez].
    pose proof (round_aux_sign false (Zpos mz) ez loc_Exact) as H.
    split; [lia|intros _].
    destruct (binary_round_aux _ _ _ _ _ _) as [| | |s' m' e'];
      try exact I. subst s'; exact I.
  - destruct (shl_align p 0 _) as [mz ez].
    pose proof (round_aux_sign true (Zpos mz) ez loc_Exact) as H.
    split; [intros _|lia].
    destruct (binary_round_aux _ _ _ _ _ _) as [| | |s' m' e'];
      try exact I. subst s'; exact I.
Qed.

Lemma true_div_sign (a b : Z) :
  0 < b ->
  (a <= 0 -> not_positive (Py64.true_div a b)) /\
  (0 <= a -> not_negative (Py64.true_div a b)).
Proof.
  intros Hb. unfold Py64.true_div.
  replace (b <? 0) with false by (symmetry; apply Z.ltb_ge; lia).
  destruct a as [|p|p].
  - split; intros _; exact I.
  - destruct (SFdiv_core_binary _ _ _ _ _ _) as [[m e] l].
    pose proof (round_aux_sign (xorb (Z.pos p <? 0) false) m e l) as H.
    split; [lia|intros _].
    destruct (binary_round_aux _ _ _ _ _ _) as [| | |s' m' e'];
      try exact I. subst s'; exact I.
  - destruct (SFdiv_core_binary _ _ _ _ _ _) as [[m e] l].
    pose proof (round_aux_sign (xorb (Z.neg p <? 0) false) m e l) as H.
    split; [intros _|lia].
    destruct (binary_round_aux _ _ _ _ _ _) as [| | |s' m' e'];
      try exact I. subst s'; exact I.
Qed.

(** The quotient of two floats has the sign its operands give it. *)
Lemma div_sign (x y : Py64.float) :
  not_negative y ->
  (not_positive x -> not_positive (Py64.div x y)) /\
  (not_negative x -> not_negative (Py64.div x y)).
Proof.
  intros Hy. unfold Py64.div, SFdiv.
  destruct x as [sx|sx| |sx mx ex], y as [sy|sy| |sy my ey];
    try (split; intros _; exact I).
  destruct sy; [destruct Hy|].
  destruct (SFdiv_core_binary _ _ _ _ _ _) as [[m e] l].
  pose proof (round_aux_sign (xorb sx false) m e l) as H.
  destruct (binary_round_aux _ _ _ _ _ _) as [| | |s' m' e'];
    try (split; intros _; exact I).
  subst s'. destruct sx; split; intros Hx; try exact I; destruct Hx.
Qed.

(** So has their product. *)
Lemma mul_sign (x y : Py64.float) :
  not_negative y ->
  (not_positive x -> not_positive (Py64.mul x y)) /\
  (not_negative x -> not_negative (Py64.mul x y)).
Proof.
  intros Hy. unfold Py64.mul, SFmul.
  destruct x as [sx|sx| |sx mx ex], y as [sy|sy| |sy my ey];
    try (split; intros _; exact I).
  destruct sy; [destruct Hy|].
  pose proof (round_aux_sign (xorb sx false) (Zpos (mx * my)) (ex + ey)
                loc_Exact) as H.
  destruct (binary_round_aux _ _ _ _ _ _) as [| | |s' m' e'];
    try (split; intros _; exact I).
  subst s'. destruct sx; split; intros Hx; try exact I; destruct Hx.
Qed.

Lemma trunc_sign (x : Py64.float) :
  (not_positive x -> Py64.trunc x <= 0) /\
  (not_negative x -> 0 <= Py64.trunc x).
Proof.
  destruct x as [s|s| |s m e]; cbn [Py64.trunc]; try (split; intros _; lia).
  assert (0 <= Z.shiftl (Zpos m) e) by (apply Z.shiftl_nonneg; lia).
  destruct s; split; intros H0; try lia; destruct H0.
Qed.

Lemma round_half_even_nonneg (num den : Z) :
  0 <= num -> 0 < den -> 0 <= Py64.round_half_even num den.
Proof.
  intros Hn Hd. unfold Py64.round_half_even.
  assert (0 <= num / den) by (apply Z.div_pos; lia).
  destruct (2 * (num mod den) <? den); [lia|].
  destruct (den <? 2 * (num mod den)); [lia|].
  destruct (Z.even (num / den)); lia.
Qed.

Lemma hundredths_sign (x : Py64.float) :
  (not_positive x -> Py64.hundredths x <= 0) /\
  (not_negative x -> 0 <= Py64.hundredths x).
Proof.
  destruct x as [s|s| |s m e]; cbn [Py64.hundredths]; try (split; intros _; lia).
  assert (0 <= (if 0 <=? e then Z.pos m * 2 ^ e * 100
                else Py64.round_half_even (Z.pos m * 100) (2 ^ (- e)))).
  { destruct (Z.leb_spec 0 e).
    - assert (0 <= 2 ^ e) by (apply Z.pow_nonneg; lia). nia.
    - apply round_half_even_nonneg; [lia|]. apply Z.pow_pos_nonneg; lia. }
  destruct s; split; intros H0; try lia; destruct H0.
Qed.

(** The speed computed from a difference of counters and a positive elapsed
    time has the sign of the difference. *)
Lemma speed_sign (delta elapsed : Z) :
  0 < elapsed ->
  (delta <= 0 -> not_positive (Net.speed delta elapsed)) /\
  (0 <= delta -> not_negative (Net.speed delta elapsed)).
Proof.
  intros He. unfold Net.speed, Net.total_seconds.
  assert (Hy : not_negative (Py64.true_div elapsed 1000000))
    by (apply true_div_sign; lia).
  split; intros Hd; apply (div_sign _ _ Hy); apply of_int_sign; exact Hd.
Qed.

Lemma rate_sign (delta elapsed : Z) :
  0 < elapsed ->
  (delta <= 0 -> Net.rate delta elapsed <= 0) /\
  (0 <= delta -> 0 <= Net.rate delta elapsed).
Proof.
  intros He. unfold Net.rate.
  split; intros Hd; apply trunc_sign; apply speed_sign; assumption.
Qed.

(** ** RateSampler *)

(** What a call that obtained its counters returns, by cases on the stored
    sample. *)
Lemma get_network_stats_ok (st : Net.sampler) (io : Net.net_io) (now : Z) :
  Net.get_network_stats st (Exn.ret io) now =
    (match Net.last_net_io st, Net.last_net_io_time st with
     | Some last, Some t =>
         if 0 <? now - t then
           Net.mk_net_stats
             (Net.bytes_sent io) (Net.bytes_recv io)
             (Net.gb (Net.bytes_sent io)) (Net.gb (Net.bytes_recv io))
             (Net.rate (Net.bytes_sent io - Net.bytes_sent last) (now - t))
             (Net.rate (Net.bytes_recv io - Net.bytes_recv last) (now - t))
             (Net.rate_mbps (Net.bytes_sent io - Net.bytes_sent last) (now - t))
             (Net.rate_mbps (Net.bytes_recv io - Net.bytes_recv last) (now - t))
         else
           Net.mk_net_stats
             (Net.bytes_sent io) (Net.bytes_recv io)
             (Net.gb (Net.bytes_sent io)) (Net.gb (Net.bytes_recv io)) 0 0 0 0
     | _, _ =>
         Net.mk_net_stats
           (Net.bytes_sent io) (Net.bytes_recv io)
           (Net.gb (Net.bytes_sent io)) (Net.gb (Net.bytes_recv io)) 0 0 0 0
     end,
     Net.mk_sampler (Some io) (Some now)).
Proof.
  unfold Net.get_network_stats, Net.sample, Exn.try_except, Exn.bind, Exn.ret.
  destruct (Net.last_net_io st), (Net.last_net_io_time st); reflexivity.
Qed.

(** C1, on the code: after a counter reset (previous sample 1000/1000 bytes,
    current counters 0/0, one second later) the reported speeds are
    -1000 bytes per second: negative, neither clamped nor zero. *)
Lemma counter_reset_reports_negative_speed :
  let st := Net.mk_sampler (Some (Net.mk_net_io 1000 1000)) (Some 0) in
  let io := Net.mk_net_io 0 0 in
  let r := fst (Net.get_network_stats st (Exn.ret io) 1000000) in
  Net.bytes_sent io < 1000 /\ 0 < 1000000 - 0 /\
  Net.upload_speed r = -1000 /\ Net.download_speed r = -1000 /\
  Net.upload_speed r < 0 /\ Net.upload_speed r <> 0.
Proof.
  vm_compute. repeat split; congruence.
Qed.

(** C1, as the code has it: with a stored previous sample and a strictly
    positive elapsed time, a counter that is smaller than the stored one is
    not clamped and the sample is not discarded: the speed reported for it
    is [int] of the float quotient of the (negative) difference by the
    elapsed seconds, a number that is never positive.  33 bytes lost over
    1.1 seconds are reported as -29 bytes per second (the float quotient is
    just above -30), 1000 bytes lost over one second as -1000. *)
Theorem counter_reset_speed (st : Net.sampler) (last io : Net.net_io) (t now : Z) :
  Net.last_net_io st = Some last ->
  Net.last_net_io_time st = Some t ->
  0 < now - t ->
  let r := fst (Net.get_network_stats st (Exn.ret io) now) in
  (Net.bytes_sent io < Net.bytes_sent last ->
     Net.upload_speed r
       = Net.rate (Net.bytes_sent io - Net.bytes_sent last) (now - t) /\
     Net.upload_speed r <= 0) /\
  (Net.bytes_recv io < Net.bytes_recv last ->
     Net.download_speed r
       = Net.rate (Net.bytes_recv io - Net.bytes_recv last) (now - t) /\
     Net.download_speed r <= 0) /\
  Net.rate (0 - 33) 1100000 = -29 /\
  Net.rate (0 - 1000) 1000000 = -1000.
Proof.
  intros Hl Ht Hpos r. subst r.
  rewrite get_network_stats_ok, Hl, Ht.
  replace (0 <? now - t) with true by (symmetry; apply Z.ltb_lt; exact Hpos).
  cbn [fst Net.upload_speed Net.download_speed].
  split; [|split].
  - intros Hlt. split; [reflexivity|]. apply rate_sign; lia.
  - intros Hlt. split; [reflexivity|]. apply rate_sign; lia.
  - vm_compute; split; reflexivity.
Qed.

Lemma counter_reset_speed_witness :
  let st := Net.mk_sampler (Some (Net.mk_net_io 1000 500)) (Some 0) in
  let r := fst (Net.get_network_stats st (Exn.ret (Net.mk_net_io 0 0)) 2000000) in
  (Net.upload_speed r = -500 /\ Net.upload_speed r <= 0) /\
  (Net.download_speed r = -250 /\ Net.download_speed r <= 0).
Proof.
  cbv zeta.
  pose proof (counter_reset_speed
                (Net.mk_sampler (Some (Net.mk_net_io 1000 500)) (Some 0))
                (Net.mk_net_io 1000 500) (Net.mk_net_io 0 0) 0 2000000
                eq_refl eq_refl ltac:(lia)) as [Hu [Hd _]].
  cbv zeta in Hu, Hd.
  destruct Hu as [Hu1 Hu2]; [cbn; lia|].
  destruct Hd as [Hd1 Hd2]; [cbn; lia|].
  split; (split; [vm_compute; reflexivity|assumption]).
Defined.

(** C6: with no stored previous sample, or with an elapsed time that is not
    strictly positive, both speeds and both Mbps figures are zero while the
    totals are the current counters. *)
Theorem no_rate_without_baseline (st : Net.sampler) (io : Net.net_io) (now : Z) :
  (Net.last_net_io st = None \/ Net.last_net_io_time st = None \/
   exists t, Net.last_net_io_time st = Some t /\ now - t <= 0) ->
  let r := fst (Net.get_network_stats st (Exn.ret io) now) in
  Net.upload_speed r = 0 /\ Net.download_speed r = 0 /\
  Net.upload_speed_mbps r = 0 /\ Net.download_speed_mbps r = 0 /\
  Net.total_sent r = Net.bytes_sent io /\ Net.total_recv r = Net.bytes_recv io.
Proof.
  intros H r; subst r. rewrite get_network_stats_ok.
  destruct (Net.last_net_io st) as [last|], (Net.last_net_io_time st) as [t|];
    try (cbn; repeat split; reflexivity).
  destruct H as [H|[H|(t' & H & Hle)]]; try discriminate.
  inversion H; subst t'.
  replace (0 <? now - t) with false by (symmetry; apply Z.ltb_ge; exact Hle).
  cbn; repeat split; reflexivity.
Qed.

Lemma no_rate_without_baseline_witness :
  (let r := fst (Net.get_network_stats Net.initial
                   (Exn.ret (Net.mk_net_io 100 200)) 5000000) in
   Net.upload_speed r = 0 /\ Net.download_speed r = 0 /\
   Net.upload_speed_mbps r = 0 /\ Net.download_speed_mbps r = 0 /\
   Net.total_sent r = 100 /\ Net.total_recv r = 200) /\
  (let st := Net.mk_sampler (Some (Net.mk_net_io 1 2)) (Some 7000000) in
   let r := fst (Net.get_network_stats st (Exn.ret (Net.mk_net_io 100 200)) 5000000) in
   Net.upload_speed r = 0 /\ Net.download_speed r = 0 /\
   Net.upload_speed_mbps r = 0 /\ Net.download_speed_mbps r = 0 /\
   Net.total_sent r = 100 /\ Net.total_recv r = 200).
Proof.
  split.
  - apply (no_rate_without_baseline Net.initial (Net.mk_net_io 100 200) 5000000).
    left; reflexivity.
  - apply (no_rate_without_baseline
             (Net.mk_sampler (Some (Net.mk_net_io 1 2)) (Some 7000000))
             (Net.mk_net_io 100 200) 5000000).
    right; right; exists 7000000; split; [reflexivity|lia].
Defined.

(** C7: a call that obtained its counters leaves them, with its timestamp,
    as the stored sample, whatever was stored before and whether or not it
    could compute a rate; the next call then measures against them. *)
Theorem sample_becomes_baseline (st : Net.sampler) (io : Net.net_io) (now : Z) :
  snd (Net.get_network_stats st (Exn.ret io) now)
    = Net.mk_sampler (Some io) (Some now) /\
  forall (io' : Net.net_io) (now' : Z),
    let r := fst (Net.get_network_stats
                    (snd (Net.get_network_stats st (Exn.ret io) now))
                    (Exn.ret io') now') in
    Net.upload_speed r
      = (if 0 <? now' - now
         then Net.rate (Net.bytes_sent io' - Net.bytes_sent io) (now' - now)
         else 0) /\
    Net.download_speed r
      = (if 0 <? now' - now
         then Net.rate (Net.bytes_recv io' - Net.bytes_recv io) (now' - now)
         else 0).
Proof.
  split; [rewrite get_network_stats_ok; reflexivity|].
  intros io' now' r; subst r.
  rewrite (get_network_stats_ok st), get_network_stats_ok.
  cbn [snd fst Net.last_net_io Net.last_net_io_time].
  destruct (0 <? now' - now); split; reflexivity.
Qed.

(** The example of the specification: counters (100, 200) at [t0], then
    (1100, 200) ten seconds later, give 100 B/s up and 0 B/s down. *)
Example two_samples_ten_seconds :
  let '(_, st1) := Net.get_network_stats Net.initial
                     (Exn.ret (Net.mk_net_io 100 200)) 0 in
  let '(r, _) := Net.get_network_stats st1
                   (Exn.ret (Net.mk_net_io 1100 200)) 10000000 in
  Net.upload_speed r = 100 /\ Net.download_speed r = 0.
Proof. vm_compute. split; reflexivity. Qed.

(** C10: when reading the counters raises, the call returns the all-zero
    record and the stored sample is what it was before the call. *)
Theorem failed_sample_keeps_baseline (st : Net.sampler) (e : Exn.exn) (now : Z) :
  Net.get_network_stats st (Exn.raise e) now = (Net.zero_stats, st).
Proof. reflexivity. Qed.

(** ** What a pattern captures *)

Lemma append_assoc (a b c : string) : ((a ++ b) ++ c = a ++ (b ++ c))%string.
Proof. induction a as [|x a IH]; cbn; [reflexivity|rewrite IH; reflexivity]. Qed.

Lemma length_append (a b : string) :
  String.length (a ++ b) = (String.length a + String.length b)%nat.
Proof. induction a as [|x a IH]; cbn; [reflexivity|rewrite IH; reflexivity]. Qed.

Lemma take_append (m t : string) :
  PyStr.take (String.length (m ++ t) - String.length t) (m ++ t) = m.
Proof.
  rewrite length_append.
  replace (String.length m + String.length t - String.length t)%nat
    with (String.length m) by lia.
  induction m as [|x m IH]; cbn.
  - destruct t; reflexivity.
  - rewrite IH; reflexivity.
Qed.

Lemma lit_append (p s t : string) : Re.lit p s = Some t -> s = (p ++ t)%string.
Proof.
  revert s; induction p as [|a p IH]; intros s H; cbn in H.
  - inversion H; reflexivity.
  - destruct s as [|b s]; [discriminate|].
    destruct (Ascii.eqb_spec a b) as [->|]; [|discriminate].
    cbn. rewrite (IH _ H). reflexivity.
Qed.

(** Greedy repetition hands its continuation the input minus a run of
    characters of the class. *)
Lemma star_greedy_run (c : Re.cset) (s : string) k r :
  Re.star_greedy c s k = Some r ->
  exists m t, s = (m ++ t)%string /\ all_chars (Re.cset_mem c) m = true /\
              k t = Some r.
Proof.
  induction s as [|a s IH]; cbn [Re.star_greedy]; intros H.
  - exists EmptyString, EmptyString; auto.
  - destruct (Re.cset_mem c a) eqn:Ea.
    + destruct (Re.star_greedy c s k) as [r'|] eqn:E.
      * inversion H; subst r'.
        destruct (IH eq_refl) as (m & t & -> & Hm & Hk).
        exists (String a m), t; cbn; rewrite Ea, Hm; auto.
      * exists EmptyString, (String a s); auto.
    + exists EmptyString, (String a s); auto.
Qed.

Lemma star_lazy_run (c : Re.cset) (s : string) k r :
  Re.star_lazy c s k = Some r ->
  exists m t, s = (m ++ t)%string /\ all_chars (Re.cset_mem c) m = true /\
              k t = Some r.
Proof.
  induction s as [|a s IH]; cbn [Re.star_lazy]; intros H.
  - destruct (k "") eqn:E; [|discriminate].
    exists EmptyString, EmptyString; repeat split; congruence.
  - destruct (k (String a s)) eqn:E.
    + exists EmptyString, (String a s); repeat split; congruence.
    + destruct (Re.cset_mem c a) eqn:Ea; [|discriminate].
      destruct (IH H) as (m & t & -> & Hm & Hk).
      exists (String a m), t; cbn; rewrite Ea, Hm; auto.
Qed.

(** A successful run reaches its continuation on a suffix of the input: the
    text consumed is one the pattern matches, and the groups bound on the
    way, each to a text its body matches, are put in front of the
    captures. *)
Lemma run_shape (r : Re.regex) :
  forall s c k res,
    Re.run r s c k = Some res ->
    exists m t c',
      s = (m ++ t)%string /\ k t c' = Some res /\ text_of r m /\
      exists new, c' = (new ++ c)%list /\
                  Forall (fun e => group_shape r (fst e) (snd e)) new /\
                  (forall n, binds r n -> In n (map fst new)).
Proof.
  induction r as [p|cs|r1 IH1 r2 IH2|r1 IH1 r2 IH2|cs|cs|n r IH];
    intros s c k res H; cbn [Re.run] in H.
  - destruct (Re.lit p s) as [t|] eqn:E; [|discriminate].
    exists p, t, c. split; [apply lit_append; exact E|].
    split; [exact H|]. split; [reflexivity|].
    exists []; repeat split; auto; intros n [].
  - destruct s as [|a s]; [discriminate|].
    destruct (Re.cset_mem cs a) eqn:Ea; [|discriminate].
    exists (String a EmptyString), s, c.
    split; [reflexivity|]. split; [exact H|].
    split; [exists a; auto|].
    exists []; repeat split; auto; intros n [].
  - apply IH1 in H.
    destruct H as (m1 & t1 & c1 & -> & H & T1 & new1 & -> & F1 & B1).
    apply IH2 in H.
    destruct H as (m2 & t & c2 & -> & H & T2 & new2 & -> & F2 & B2).
    exists (m1 ++ m2)%string, t, (new2 ++ new1 ++ c)%list.
    split; [symmetry; apply append_assoc|]. split; [exact H|].
    split; [exists m1, m2; auto|].
    exists (new2 ++ new1)%list. split; [apply app_assoc|]. split.
    + apply Forall_app; split; eapply Forall_impl; try eassumption;
        cbn; intros; tauto.
    + intros n [Hn|Hn]; rewrite map_app; apply in_or_app; auto.
  - destruct (Re.run r1 s c k) as [res1|] eqn:E.
    + inversion H; subst res1. apply IH1 in E.
      destruct E as (m & t & c' & -> & Hk & T & new & -> & F & B).
      exists m, t, (new ++ c)%list.
      split; [reflexivity|]. split; [exact Hk|]. split; [left; exact T|].
      exists new; split; [reflexivity|]. split.
      * eapply Forall_impl; try eassumption; cbn; intros; tauto.
      * intros n [Hn _]; auto.
    + apply IH2 in H.
      destruct H as (m & t & c' & -> & Hk & T & new & -> & F & B).
      exists m, t, (new ++ c)%list.
      split; [reflexivity|]. split; [exact Hk|]. split; [right; exact T|].
      exists new; split; [reflexivity|]. split.
      * eapply Forall_impl; try eassumption; cbn; intros; tauto.
      * intros n [_ Hn]; auto.
  - destruct s as [|a s]; [discriminate|].
    destruct (Re.cset_mem cs a) eqn:Ea; [|discriminate].
    apply star_greedy_run in H. destruct H as (m & t & -> & Hm & Hk).
    exists (String a m), t, c.
    split; [reflexivity|]. split; [exact Hk|].
    split; [cbn; rewrite Ea, Hm; auto|].
    exists []; repeat split; auto; intros n [].
  - apply star_lazy_run in H. destruct H as (m & t & -> & Hm & Hk).
    exists m, t, c.
    split; [reflexivity|]. split; [exact Hk|]. split; [exact Hm|].
    exists []; repeat split; auto; intros n [].
  - apply IH in H.
    destruct H as (m & t & c' & -> & Hk & T & new & -> & F & B).
    rewrite take_append in Hk.
    exists m, t, ((n, m) :: new ++ c)%list.
    split; [reflexivity|]. split; [exact Hk|]. split; [exact T|].
    exists ((n, m) :: new). split; [reflexivity|]. split.
    + constructor; [left; auto|].
      eapply Forall_impl; try eassumption. cbn; intros; tauto.
    + intros n' [->|Hn]; [left; reflexivity|right; auto].
Qed.

Lemma group_in (n : nat) (c : Re.caps) (v : string) :
  Re.group n c = Some v -> In (n, v) c.
Proof.
  induction c as [|[m w] c IH]; cbn; [discriminate|].
  destruct (Nat.eqb_spec n m) as [->|]; intros H.
  - inversion H; auto.
  - right; auto.
Qed.

Lemma group_bound (n : nat) (c : Re.caps) :
  In n (map fst c) -> exists v, Re.group n c = Some v.
Proof.
  induction c as [|[m w] c IH]; cbn; [intros []|].
  destruct (Nat.eqb_spec n m) as [->|Hne]; [eauto|].
  intros [H|H]; [congruence|auto].
Qed.

(** Every group of a match found by [search] holds a text its body matches,
    and the groups the pattern always binds are bound. *)
Lemma search_groups (r : Re.regex) (s : string) (c : Re.caps) :
  Re.search r s = Some c ->
  (forall n v, Re.group n c = Some v -> group_shape r n v) /\
  (forall n, binds r n -> exists v, Re.group n c = Some v).
Proof.
  assert (Hm : forall s, Re.match_here r s = Some c ->
            (forall n v, Re.group n c = Some v -> group_shape r n v) /\
            (forall n, binds r n -> exists v, Re.group n c = Some v)).
  { intros s0 H. unfold Re.match_here in H. apply run_shape in H.
    destruct H as (m & t & c' & _ & Hk & _ & new & -> & F & B).
    inversion Hk; subst c. rewrite app_nil_r. split.
    - intros n v Hg. apply group_in in Hg.
      rewrite Forall_forall in F. exact (F _ Hg).
    - intros n Hn. apply group_bound. auto. }
  induction s as [|a s IH]; cbn [Re.search].
  - destruct (Re.match_here r "") eqn:E; [|discriminate].
    intros H; inversion H; subst; eauto.
  - destruct (Re.match_here r (String a s)) eqn:E; [|exact IH].
    intros H; inversion H; subst; eauto.
Qed.

Lemma search_group_shape (r : Re.regex) (s : string) (c : Re.caps)
    (n : nat) (v : string) :
  Re.search r s = Some c -> Re.group n c = Some v -> group_shape r n v.
Proof. intros H. apply (proj1 (search_groups r s c H)). Qed.

Ltac shape_cases :=
  cbn; intros;
  repeat match goal with
         | H : _ \/ _ |- _ => destruct H
         | H : _ /\ _ |- _ => destruct H
         | H : False |- _ => destruct H
         end; try discriminate; try assumption.

Lemma int_acc_nonneg (s : string) (acc : Z) :
  0 <= acc -> all_chars PyStr.is_digit s = true -> 0 <= PyStr.int_acc acc s.
Proof.
  revert acc; induction s as [|a s IH]; intros acc Hacc Hd;
    cbn [PyStr.int_acc all_chars] in *; [exact Hacc|].
  apply andb_prop in Hd; destruct Hd as [Ha Hs].
  apply IH; [|exact Hs].
  unfold PyStr.is_digit in Ha. apply andb_prop in Ha; destruct Ha as [H1 H2].
  apply Nat.leb_le in H1. lia.
Qed.

(** The number read from a group that can only hold digits is not
    negative. *)
Lemma group_value_nonneg (r : Re.regex) (s : string) (c : Re.caps) (n : nat) :
  Re.search r s = Some c ->
  (forall v, group_shape r n v -> all_chars PyStr.is_digit v = true) ->
  0 <= PyStr.digits_value (Re.group_str n c).
Proof.
  intros Hs Hd. unfold Re.group_str, PyStr.digits_value.
  destruct (Re.group n c) as [v|] eqn:E; [|cbn; lia].
  apply int_acc_nonneg; [lia|]. apply Hd. eapply search_group_shape; eauto.
Qed.

(** What [int] returns, when it returns, is the number the digits denote. *)
Lemma int_value (s : string) (n : Z) :
  PyInt.int s = Exn.ret n -> n = PyStr.digits_value s.
Proof.
  unfold PyInt.int. destruct (_ <? _)%nat; [discriminate|].
  intros H; inversion H; reflexivity.
Qed.

Lemma int_short (s : string) :
  (String.length s <= PyInt.MAX_STR_DIGITS)%nat ->
  PyInt.int s = Exn.ret (PyStr.digits_value s).
Proof.
  intros H. unfold PyInt.int.
  destruct (Nat.ltb_spec PyInt.MAX_STR_DIGITS (String.length s)); [lia|reflexivity].
Qed.

Lemma moved_of_nonneg (log : string) (size count : Z) :
  moved_of log = Some (size, count) -> 0 <= size /\ 0 <= count.
Proof.
  unfold moved_of. destruct (Sync.is_success log); [|discriminate].
  destruct (Re.search Sync.moved_re log) as [c|] eqn:E; [|discriminate].
  intros H; inversion H; subst; clear H.
  split; eapply group_value_nonneg; try exact E; shape_cases.
Qed.

Lemma sumZ_nonneg (l : list Z) : (forall x, In x l -> 0 <= x) -> 0 <= sumZ l.
Proof.
  induction l as [|x l IH]; intros H; cbn; [lia|].
  assert (0 <= x) by (apply H; left; reflexivity).
  assert (0 <= sumZ l) by (apply IH; intros y Hy; apply H; right; exact Hy).
  lia.
Qed.

Lemma in_filter_map {A B} (f : A -> option B) (l : list A) (y : B) :
  In y (filter_map f l) -> exists x, In x l /\ f x = Some y.
Proof.
  induction l as [|x l IH]; cbn; [tauto|].
  destruct (f x) as [z|] eqn:E.
  - intros [<-|H]; [exists x; auto|].
    destruct (IH H) as (x' & Hx & Hf); exists x'; auto.
  - intros H. destruct (IH H) as (x' & Hx & Hf); exists x'; auto.
Qed.

(** ** Sync-log aggregation *)

(** Whether a line makes a conversion raise does not depend on the
    record. *)
Lemma sync_step_raises (st : Sync.sync_stats) (log : string) :
  snd (Sync.sync_step st log) = snd (Sync.sync_step Sync.init_stats log).
Proof.
  unfold Sync.sync_step, Sync.success_part.
  destruct (Sync.is_success log); [|reflexivity].
  destruct (Re.search Sync.moved_re log) as [c|]; [|reflexivity].
  destruct (PyInt.int (Re.group_str 1 c)); [reflexivity|].
  destruct (PyInt.int (Re.group_str 2 c)); reflexivity.
Qed.

(** The loop body raises exactly on the lines [conversion_fails] names. *)
Lemma conversion_fails_raises (log : string) :
  conversion_fails log
    = match snd (Sync.sync_step Sync.init_stats log) with
      | Some _ => true
      | None => false
      end.
Proof.
  unfold conversion_fails, Sync.sync_step, Sync.success_part, Sync.is_success,
    PyInt.int, PyInt.MAX_STR_DIGITS.
  destruct (PyStr.contains "同步成功" log); [|reflexivity]. cbn [andb].
  destruct (Re.search Sync.moved_re log) as [c|]; [|reflexivity].
  destruct (4300 <? String.length (Re.group_str 1 c))%nat; [reflexivity|].
  destruct (4300 <? String.length (Re.group_str 2 c))%nat; reflexivity.
Qed.

(** A line on which a conversion raises leaves the record with its success
    counter incremented and nothing else changed. *)
Lemma sync_step_fail (st : Sync.sync_stats) (log : string) :
  conversion_fails log = true ->
  fst (Sync.sync_step st log)
    = Sync.mk_stats (Sync.total_synced st) (Sync.total_size_mb st)
        (Sync.success_count st + 1) (Sync.error_count st)
        (Sync.last_sync st) (Sync.recent_files st) /\
  snd (Sync.sync_step st log) <> None.
Proof.
  rewrite conversion_fails_raises, <- (sync_step_raises st).
  unfold Sync.sync_step, Sync.success_part.
  destruct (Sync.is_success log); [|discriminate].
  destruct (Re.search Sync.moved_re log) as [c|]; [|discriminate].
  destruct (PyInt.int (Re.group_str 1 c)); [split; [reflexivity|discriminate]|].
  destruct (PyInt.int (Re.group_str 2 c)); [split; [reflexivity|discriminate]|].
  discriminate.
Qed.

(** What a line on which no conversion raises does to the record. *)
Lemma sync_step_pass (st : Sync.sync_stats) (log : string) :
  conversion_fails log = false ->
  let st' := fst (Sync.sync_step st log) in
  snd (Sync.sync_step st log) = None /\
  Sync.success_count st'
    = Sync.success_count st + (if Sync.is_success log then 1 else 0) /\
  Sync.error_count st'
    = Sync.error_count st + (if Sync.is_error log then 1 else 0) /\
  Sync.total_size_mb st'
    = Sync.total_size_mb st
      + match moved_of log with Some (size, _) => size | None => 0 end /\
  Sync.total_synced st'
    = Sync.total_synced st
      + match moved_of log with Some (_, count) => count | None => 0 end /\
  Sync.last_sync st'
    = (if Sync.is_success log then
         match Sync.time_match log with
         | Some t =>
             if PyStr.truthy_opt (Sync.last_sync st)
             then Sync.last_sync st else Some t
         | None => Sync.last_sync st
         end
       else Sync.last_sync st) /\
  Sync.recent_files st' = Sync.recent_files st.
Proof.
  rewrite conversion_fails_raises, <- (sync_step_raises st). cbv zeta.
  unfold Sync.sync_step, Sync.success_part, moved_of.
  destruct (Sync.is_success log).
  - destruct (Re.search Sync.moved_re log) as [c|].
    + destruct (PyInt.int (Re.group_str 1 c)) as [e1|v1] eqn:E1; [discriminate|].
      destruct (PyInt.int (Re.group_str 2 c)) as [e2|v2] eqn:E2; [discriminate|].
      apply int_value in E1, E2. subst v1 v2. intros _.
      destruct (Sync.time_match log), (Sync.is_error log);
        cbn [fst snd Sync.success_count Sync.error_count Sync.total_size_mb
             Sync.total_synced Sync.last_sync Sync.recent_files
             PyStr.truthy_opt negb];
        try destruct (PyStr.truthy_opt (Sync.last_sync st));
        cbn [fst snd Sync.success_count Sync.error_count Sync.total_size_mb
             Sync.total_synced Sync.last_sync Sync.recent_files negb];
        repeat split; try reflexivity; lia.
    + intros _.
      destruct (Sync.time_match log), (Sync.is_error log);
        cbn [fst snd Sync.success_count Sync.error_count Sync.total_size_mb
             Sync.total_synced Sync.last_sync Sync.recent_files negb];
        try destruct (PyStr.truthy_opt (Sync.last_sync st));
        cbn [fst snd Sync.success_count Sync.error_count Sync.total_size_mb
             Sync.total_synced Sync.last_sync Sync.recent_files negb];
        repeat split; try reflexivity; lia.
  - intros _. destruct (Sync.is_error log);
      cbn [fst snd Sync.success_count Sync.error_count Sync.total_size_mb
           Sync.total_synced Sync.last_sync Sync.recent_files];
      repeat split; try reflexivity; lia.
Qed.

Lemma sync_step_last_sync (st : Sync.sync_stats) (log : string) :
  Sync.last_sync (fst (Sync.sync_step st log))
    = if Sync.is_success log && negb (conversion_fails log) then
        match Sync.time_match log with
        | Some t =>
            if PyStr.truthy_opt (Sync.last_sync st)
            then Sync.last_sync st else Some t
        | None => Sync.last_sync st
        end
      else Sync.last_sync st.
Proof.
  destruct (conversion_fails log) eqn:E.
  - destruct (sync_step_fail st log E) as [-> _]. rewrite andb_false_r. reflexivity.
  - destruct (sync_step_pass st log E) as (_ & _ & _ & _ & _ & H & _).
    cbv zeta in H. rewrite H, andb_true_r. reflexivity.
Qed.

(** The first loop, whatever its start: which lines it went through, and
    what it counted on them. *)
Lemma sync_loop_spec (logs : list string) (st : Sync.sync_stats) :
  let st' := fst (Sync.sync_loop logs st) in
  let failed := existsb conversion_fails logs in
  let seen := before_failure logs in
  (snd (Sync.sync_loop logs st) = None <-> failed = false) /\
  Sync.success_count st'
    = Sync.success_count st
      + Z.of_nat (List.length (filter Sync.is_success seen))
      + (if failed then 1 else 0) /\
  Sync.error_count st'
    = Sync.error_count st + Z.of_nat (List.length (filter Sync.is_error seen)) /\
  Sync.total_size_mb st'
    = Sync.total_size_mb st + sumZ (map fst (filter_map moved_of seen)) /\
  Sync.total_synced st'
    = Sync.total_synced st + sumZ (map snd (filter_map moved_of seen)) /\
  Sync.recent_files st' = Sync.recent_files st.
Proof.
  cbv zeta. revert st; induction logs as [|log logs IH]; intros st.
  - cbn. repeat split; try lia; reflexivity.
  - cbn [Sync.sync_loop existsb before_failure].
    destruct (conversion_fails log) eqn:E.
    + destruct (sync_step_fail st log E) as [Hf Hs].
      destruct (Sync.sync_step st log) as [st1 [e|]]; cbn [fst snd] in *;
        [|congruence].
      subst st1.
      cbn. repeat split; try lia; try discriminate; reflexivity.
    + destruct (sync_step_pass st log E) as (Hs & H1 & H2 & H3 & H4 & _ & H6).
      cbv zeta in *.
      destruct (Sync.sync_step st log) as [st1 [e|]]; cbn [fst snd orb] in *;
        [discriminate|].
      destruct (IH st1) as (I0 & I1 & I2 & I3 & I4 & I6).
      rewrite I1, I2, I3, I4, I6, H1, H2, H3, H4, H6.
      cbn [filter filter_map].
      destruct (Sync.is_success log), (Sync.is_error log),
        (moved_of log) as [[size count]|];
        cbn [List.length map fst snd sumZ];
        (split; [exact I0|]); repeat split; lia.
Qed.

Lemma sync_loop_keeps_last_sync (logs : list string) (st : Sync.sync_stats) :
  PyStr.truthy_opt (Sync.last_sync st) = true ->
  Sync.last_sync (fst (Sync.sync_loop logs st)) = Sync.last_sync st.
Proof.
  revert st; induction logs as [|log logs IH]; intros st Hst; [reflexivity|].
  cbn [Sync.sync_loop].
  assert (E : Sync.last_sync (fst (Sync.sync_step st log)) = Sync.last_sync st).
  { rewrite sync_step_last_sync, Hst.
    destruct (_ && _), (Sync.time_match log); reflexivity. }
  destruct (Sync.sync_step st log) as [st1 [e|]]; cbn [fst] in *; [exact E|].
  rewrite IH; rewrite E; auto.
Qed.

(** With no timestamp on the success lines gone through, [last_sync] stays
    as it is. *)
Lemma sync_loop_no_timestamp (logs : list string) (st : Sync.sync_stats) :
  (forall x, In x logs -> Sync.is_success x = true -> Sync.time_match x = None) ->
  Sync.last_sync (fst (Sync.sync_loop logs st)) = Sync.last_sync st.
Proof.
  revert st; induction logs as [|log logs IH]; intros st H; [reflexivity|].
  cbn [Sync.sync_loop].
  assert (E : Sync.last_sync (fst (Sync.sync_step st log)) = Sync.last_sync st).
  { rewrite sync_step_last_sync.
    destruct (Sync.is_success log) eqn:Es; [|reflexivity].
    rewrite (H log (or_introl eq_refl) Es).
    destruct (_ && _); reflexivity. }
  destruct (Sync.sync_step st log) as [st1 [e|]]; cbn [fst] in *; [exact E|].
  rewrite IH; [exact E|]. intros x Hx; apply H; right; exact Hx.
Qed.

(** The first success line that carries a timestamp sets [last_sync], when
    no conversion raised up to and on that line. *)
Lemma sync_loop_first_timestamp
    (pre post : list string) (log t : string) (st : Sync.sync_stats) :
  Sync.last_sync st = None ->
  (forall x, In x pre -> Sync.is_success x = true -> Sync.time_match x = None) ->
  (forall x, In x (pre ++ [log])%list -> conversion_fails x = false) ->
  Sync.is_success log = true ->
  Sync.time_match log = Some t ->
  Sync.last_sync (fst (Sync.sync_loop (pre ++ log :: post)%list st)) = Some t.
Proof.
  revert st; induction pre as [|x pre IH]; intros st Hst Hpre Hok Hs Ht.
  - cbn [app Sync.sync_loop].
    assert (E : Sync.last_sync (fst (Sync.sync_step st log)) = Some t).
    { rewrite sync_step_last_sync, Hs, Ht, Hst.
      rewrite (Hok log (or_introl eq_refl)). reflexivity. }
    destruct (Sync.sync_step st log) as [st1 [e|]]; cbn [fst] in *; [exact E|].
    rewrite sync_loop_keeps_last_sync; [exact E|].
    rewrite E. cbn. eapply time_match_truthy; eauto.
  - cbn [app Sync.sync_loop].
    assert (Ex : conversion_fails x = false) by (apply Hok; left; reflexivity).
    destruct (sync_step_pass st x Ex) as (Hn & _ & _ & _ & _ & Hl & _).
    cbv zeta in Hl.
    assert (E : Sync.last_sync (fst (Sync.sync_step st x)) = None).
    { rewrite Hl, Hst. destruct (Sync.is_success x) eqn:Esx; [|reflexivity].
      rewrite (Hpre x (or_introl eq_refl) Esx). reflexivity. }
    destruct (Sync.sync_step st x) as [st1 [e|]]; cbn [fst snd] in *;
      [discriminate|].
    apply IH; auto.
    + intros y Hy; apply Hpre; right; exact Hy.
    + intros y Hy; apply Hok; right; exact Hy.
Qed.

Lemma rclone_step_last_sync (st : Sync.sync_stats) (log : string) :
  Sync.last_sync (Sync.rclone_step st log) = Sync.last_sync st.
Proof.
  unfold Sync.rclone_step.
  destruct (Sync.completion log); [|reflexivity].
  destruct (_ <? _)%nat; reflexivity.
Qed.

Lemma rclone_loop_last_sync (logs : list string) (st : Sync.sync_stats) :
  Sync.last_sync (fold_left Sync.rclone_step logs st) = Sync.last_sync st.
Proof.
  revert st; induction logs as [|log logs IH]; intros st; [reflexivity|].
  cbn [fold_left]. rewrite IH. apply rclone_step_last_sync.
Qed.

Lemma rclone_loop_counts (logs : list string) (st : Sync.sync_stats) :
  let st' := fold_left Sync.rclone_step logs st in
  Sync.success_count st' = Sync.success_count st /\
  Sync.error_count st' = Sync.error_count st /\
  Sync.total_size_mb st' = Sync.total_size_mb st /\
  Sync.total_synced st' = Sync.total_synced st.
Proof.
  cbv zeta. revert st; induction logs as [|log logs IH]; intros st.
  - cbn; auto.
  - cbn [fold_left]. destruct (IH (Sync.rclone_step st log)) as (H1 & H2 & H3 & H4).
    rewrite H1, H2, H3, H4. unfold Sync.rclone_step.
    destruct (Sync.completion log); [destruct (_ <? _)%nat|]; cbn; auto.
Qed.

(** The capped append of the second loop is the ten-entry prefix of what
    an uncapped append would have built. *)
Lemma rclone_loop_recent_files (logs : list string) (st : Sync.sync_stats) :
  (List.length (Sync.recent_files st) <= 10)%nat ->
  Sync.recent_files (fold_left Sync.rclone_step logs st)
    = firstn 10 (Sync.recent_files st ++ filter_map Sync.completion logs)%list.
Proof.
  revert st; induction logs as [|log logs IH]; intros st Hlen.
  - cbn [fold_left filter_map]. rewrite app_nil_r, firstn_all2; auto.
  - cbn [fold_left filter_map]. unfold Sync.rclone_step at 2.
    destruct (Sync.completion log) as [entry|]; [|apply IH; exact Hlen].
    destruct (_ <? _)%nat eqn:Hlt.
    + apply Nat.ltb_lt in Hlt.
      rewrite IH; cbn [Sync.recent_files].
      * rewrite <- app_assoc; reflexivity.
      * rewrite length_app; cbn; lia.
    + apply Nat.ltb_ge in Hlt.
      rewrite IH by exact Hlen.
      rewrite !firstn_app.
      replace (10 - List.length (Sync.recent_files st))%nat with 0%nat by lia.
      reflexivity.
Qed.

(** The record of [get_sync_stats] in terms of its two loops. *)
Lemma sync_stats_of_cases (logs rclone_logs : list string) :
  let st := fst (Sync.sync_loop logs Sync.init_stats) in
  (existsb conversion_fails logs = true /\
   Sync.sync_stats_of logs rclone_logs = st) \/
  (existsb conversion_fails logs = false /\
   Sync.sync_stats_of logs rclone_logs
     = fold_left Sync.rclone_step (rev rclone_logs) st).
Proof.
  cbv zeta. unfold Sync.sync_stats_of.
  destruct (sync_loop_spec logs Sync.init_stats) as ([H1 H2] & _).
  cbv zeta in *.
  destruct (Sync.sync_loop logs Sync.init_stats) as [st [e|]]; cbn [fst snd] in *.
  - left. split; [|reflexivity].
    destruct (existsb conversion_fails logs); [reflexivity|].
    specialize (H2 eq_refl); discriminate.
  - right. split; [apply H1; reflexivity|reflexivity].
Qed.

Lemma sync_stats_of_last_sync (logs rclone_logs : list string) :
  Sync.last_sync (Sync.sync_stats_of logs rclone_logs)
    = Sync.last_sync (fst (Sync.sync_loop logs Sync.init_stats)).
Proof.
  destruct (sync_stats_of_cases logs rclone_logs) as [[_ ->]|[_ ->]];
    cbv zeta; [reflexivity|apply rclone_loop_last_sync].
Qed.

(** C4, on the code: the first success line of the tail carries the
    timestamp 2024-01-01 10:00 and a moved size of 4301 digits; [int] raises
    on the size before the timestamp is looked at, the handler returns the
    record as it stands, and [last_sync] is absent. *)
Lemma last_sync_lost_on_oversize_size :
  let fs := Samples.fs_of Samples.oversize_sync_log Samples.rclone_log in
  first_success_time (LogTail.parse_log_file fs SYNC_LOG_FILE 500)
    = Some "2024-01-01 10:00" /\
  Sync.last_sync (Sync.get_sync_stats fs) = None /\
  Sync.success_count (Sync.get_sync_stats fs) = 1.
Proof. vm_compute. repeat split; reflexivity. Qed.

(** C4, as the code has it: [last_sync] is the bracketed text of the
    earliest success line of the sync-log tail that carries one, provided
    no conversion raised on the lines up to and including it (no success
    line there reports a moved size or file count of more than 4300
    digits); success lines after it do not change it, whatever happens on
    them.  It is absent when no success line carries one.  On a tail whose
    success lines carry [2024-01-01 10:00] and then [2024-01-01 11:00] it is
    "2024-01-01 10:00". *)
Theorem last_sync_first_wins (fs : LogTail.filesystem) :
  let logs := LogTail.parse_log_file fs SYNC_LOG_FILE 500 in
  let stats := Sync.get_sync_stats fs in
  (forall pre log post t,
      logs = (pre ++ log :: post)%list ->
      (forall x, In x pre -> Sync.is_success x = true -> Sync.time_match x = None) ->
      (forall x, In x (pre ++ [log])%list -> conversion_fails x = false) ->
      Sync.is_success log = true ->
      Sync.time_match log = Some t ->
      Sync.last_sync stats = Some t) /\
  ((forall x, In x logs -> Sync.is_success x = true -> Sync.time_match x = None) ->
   Sync.last_sync stats = None) /\
  Sync.last_sync
    (Sync.get_sync_stats (Samples.fs_of Samples.sync_log Samples.rclone_log))
    = Some "2024-01-01 10:00".
Proof.
  cbv zeta. unfold Sync.get_sync_stats. rewrite sync_stats_of_last_sync.
  split; [|split].
  - intros pre log post t Hlogs Hpre Hok Hs Ht. rewrite Hlogs.
    apply sync_loop_first_timestamp; auto.
  - intros Hnone. rewrite sync_loop_no_timestamp by exact Hnone. reflexivity.
  - vm_compute; reflexivity.
Qed.

Lemma last_sync_first_wins_witness :
  Sync.last_sync
    (Sync.get_sync_stats (Samples.fs_of Samples.sync_log Samples.rclone_log))
  = Some "2024-01-01 10:00".
Proof.
  apply (proj1 (last_sync_first_wins
                  (Samples.fs_of Samples.sync_log Samples.rclone_log))
           []
           "[2024-01-01 10:00] 同步成功: 已移动 50MB, 共 3 个文件"
           [ "[2024-01-01 10:30] ERROR: 同步失败";
             "[2024-01-01 11:00] 同步成功: 已移动 7MB, 共 1 个文件" ]
           "2024-01-01 10:00").
  - vm_compute; reflexivity.
  - intros x [].
  - intros x [<-|[]]. vm_compute; reflexivity.
  - vm_compute; reflexivity.
  - vm_compute; reflexivity.
Defined.

Lemma in_firstn {A} (n : nat) (l : list A) (x : A) :
  In x (firstn n l) -> In x l.
Proof.
  revert l; induction n as [|n IH]; intros [|y l]; cbn; try tauto.
  intros [H|H]; [left; exact H|right; apply IH; exact H].
Qed.

(** An entry of [recent_files] comes from a line tagged INFO, and its action
    is one of the two completion markers. *)
Lemma completion_entry (log : string) (e : Sync.recent_file) :
  Sync.completion log = Some e ->
  PyStr.contains "INFO" log = true /\
  (Sync.rf_action e = "Copied" \/ Sync.rf_action e = "Moved").
Proof.
  unfold Sync.completion.
  destruct (PyStr.contains "INFO" log); [|discriminate].
  destruct (_ || _); [|discriminate]. cbn [andb].
  destruct (Re.search Sync.done_re log) as [c|] eqn:E; [|discriminate].
  intros H; inversion H; subst e; clear H. split; [reflexivity|].
  cbn [Sync.rf_action].
  destruct (search_groups _ _ _ E) as [Hshape Hbound].
  destruct (Hbound 2%nat) as [v Hv]; [cbn; auto 10|].
  unfold Re.group_str. rewrite Hv.
  specialize (Hshape _ _ Hv). revert Hshape. shape_cases; auto.
Qed.

(** C5: whatever the two log files hold, [recent_files] has at most ten
    entries and is a prefix of the list of completion entries met when the
    transfer-log tail is read from its newest line to its oldest: the first
    ten of them when the scan of the sync log ended normally, none when a
    conversion raised there.  Each entry comes from a line of the tail
    tagged INFO and carries the action Copied or Moved.  On a tail with
    twelve completion lines among fourteen, the entries are the ten most
    recent ones, newest first. *)
Theorem recent_files_newest_first (fs : LogTail.filesystem) :
  let rclone_logs := LogTail.parse_log_file fs RCLONE_LOG_FILE 100 in
  let stats := Sync.get_sync_stats fs in
  (List.length (Sync.recent_files stats) <= 10)%nat /\
  (exists n, Sync.recent_files stats
             = firstn n (filter_map Sync.completion (rev rclone_logs))) /\
  (existsb conversion_fails (LogTail.parse_log_file fs SYNC_LOG_FILE 500) = false ->
   Sync.recent_files stats
     = firstn 10 (filter_map Sync.completion (rev rclone_logs))) /\
  (forall e, In e (Sync.recent_files stats) ->
     exists log, In log rclone_logs /\ PyStr.contains "INFO" log = true /\
                 Sync.completion log = Some e /\
                 (Sync.rf_action e = "Copied" \/ Sync.rf_action e = "Moved")) /\
  Sync.recent_files
    (Sync.get_sync_stats
       (Samples.fs_of Samples.sync_log Samples.completions_log))
    = [ Sync.mk_recent "f14.mkv" "Moved"; Sync.mk_recent "f13.mkv" "Copied";
        Sync.mk_recent "f12.mkv" "Copied"; Sync.mk_recent "f11.mkv" "Copied";
        Sync.mk_recent "f10.mkv" "Copied"; Sync.mk_recent "f09.mkv" "Moved";
        Sync.mk_recent "f08.mkv" "Copied"; Sync.mk_recent "f06.mkv" "Copied";
        Sync.mk_recent "f04.mkv" "Copied"; Sync.mk_recent "f03.mkv" "Copied" ].
Proof.
  cbv zeta. unfold Sync.get_sync_stats at 1 2 3 4.
  set (logs := LogTail.parse_log_file fs SYNC_LOG_FILE 500).
  set (rl := LogTail.parse_log_file fs RCLONE_LOG_FILE 100).
  destruct (sync_loop_spec logs Sync.init_stats) as (_ & _ & _ & _ & _ & Hr).
  cbv zeta in Hr. cbn [Sync.init_stats Sync.recent_files] in Hr.
  assert (Hall : forall e,
             In e (firstn 10 (filter_map Sync.completion (rev rl))) ->
             exists log, In log rl /\ PyStr.contains "INFO" log = true /\
                         Sync.completion log = Some e /\
                         (Sync.rf_action e = "Copied" \/
                          Sync.rf_action e = "Moved")).
  { intros e He. apply in_firstn, in_filter_map in He.
    destruct He as (log & Hin & Hc). exists log.
    split; [apply in_rev; exact Hin|].
    destruct (completion_entry log e Hc). auto. }
  destruct (sync_stats_of_cases logs rl) as [[Hf ->]|[Hf ->]]; cbv zeta.
  - rewrite Hr.
    split; [cbn; lia|]. split; [exists 0%nat; reflexivity|].
    split; [intros H; congruence|]. split; [intros e []|].
    vm_compute; reflexivity.
  - rewrite rclone_loop_recent_files by (rewrite Hr; cbn; lia).
    rewrite Hr. cbn [app].
    split; [apply firstn_le_length|]. split; [exists 10%nat; reflexivity|].
    split; [reflexivity|]. split; [exact Hall|].
    vm_compute; reflexivity.
Qed.

Lemma recent_files_newest_first_witness :
  let fs := Samples.fs_of Samples.sync_log Samples.completions_log in
  (List.length (Sync.recent_files (Sync.get_sync_stats fs)) <= 10)%nat /\
  map Sync.rf_name (Sync.recent_files (Sync.get_sync_stats fs))
    = map Sync.rf_name
        (firstn 10
           (filter_map Sync.completion
              (rev (LogTail.parse_log_file fs RCLONE_LOG_FILE 100)))) /\
  map Sync.rf_name (Sync.recent_files (Sync.get_sync_stats fs))
    = ["f14.mkv"; "f13.mkv"; "f12.mkv"; "f11.mkv"; "f10.mkv";
       "f09.mkv"; "f08.mkv"; "f06.mkv"; "f04.mkv"; "f03.mkv"].
Proof.
  cbv zeta.
  pose proof (recent_files_newest_first
                (Samples.fs_of Samples.sync_log Samples.completions_log))
    as (H1 & _ & H3 & _ & H5).
  split; [exact H1|]. split.
  - rewrite H3 by (vm_compute; reflexivity). reflexivity.
  - rewrite H5. reflexivity.
Defined.

(** X1: [success_count] and [error_count] count the lines of the sync-log
    tail that contain the success marker and those that contain [ERROR],
    independently, among the lines before the first one on which a
    conversion raises (all of them when none does); the raising line itself
    is counted as a success and not looked at for [ERROR]. *)
Theorem sync_counts_count_lines (logs rclone_logs : list string) :
  let stats := Sync.sync_stats_of logs rclone_logs in
  Sync.success_count stats
    = Z.of_nat (List.length (filter Sync.is_success (before_failure logs)))
      + (if existsb conversion_fails logs then 1 else 0) /\
  Sync.error_count stats
    = Z.of_nat (List.length (filter Sync.is_error (before_failure logs))) /\
  Sync.success_count
    (Sync.get_sync_stats
       (Samples.fs_of Samples.oversize_sync_log Samples.rclone_log)) = 1 /\
  Sync.error_count
    (Sync.get_sync_stats
       (Samples.fs_of Samples.oversize_sync_log Samples.rclone_log)) = 0 /\
  Sync.success_count
    (Sync.get_sync_stats
       (Samples.fs_of Samples.sync_log Samples.rclone_log)) = 2 /\
  Sync.error_count
    (Sync.get_sync_stats
       (Samples.fs_of Samples.sync_log Samples.rclone_log)) = 1.
Proof.
  cbv zeta.
  destruct (sync_loop_spec logs Sync.init_stats) as (_ & H1 & H2 & _).
  cbv zeta in *. cbn [Sync.init_stats Sync.success_count Sync.error_count] in *.
  split; [|split; [|vm_compute; repeat split; reflexivity]].
  - destruct (sync_stats_of_cases logs rclone_logs) as [[_ ->]|[_ ->]];
      cbv zeta.
    + rewrite H1. lia.
    + destruct (rclone_loop_counts (rev rclone_logs)
                  (fst (Sync.sync_loop logs Sync.init_stats))) as (R1 & _).
      cbv zeta in R1. rewrite R1, H1. lia.
  - destruct (sync_stats_of_cases logs rclone_logs) as [[_ ->]|[_ ->]];
      cbv zeta.
    + rewrite H2. lia.
    + destruct (rclone_loop_counts (rev rclone_logs)
                  (fst (Sync.sync_loop logs Sync.init_stats))) as (_ & R2 & _).
      cbv zeta in R2. rewrite R2, H2. lia.
Qed.

(** X2: [total_size_mb] and [total_synced] are the sums of the two numbers
    the moved-size pattern captures, over the success lines in which it is
    found among the lines before the first one on which a conversion raises
    (all of them when none does); lines without the success marker add
    nothing, and neither total is ever negative.  A success line moving
    50MB in 3 files and one moving 7MB in 1 file give 57 and 4. *)
Theorem sync_totals_sum_moved (logs rclone_logs : list string) :
  let stats := Sync.sync_stats_of logs rclone_logs in
  Sync.total_size_mb stats
    = sumZ (map fst (filter_map moved_of (before_failure logs))) /\
  Sync.total_synced stats
    = sumZ (map snd (filter_map moved_of (before_failure logs))) /\
  0 <= Sync.total_size_mb stats /\ 0 <= Sync.total_synced stats /\
  Sync.total_size_mb
    (Sync.get_sync_stats
       (Samples.fs_of Samples.sync_log Samples.rclone_log)) = 57 /\
  Sync.total_synced
    (Sync.get_sync_stats
       (Samples.fs_of Samples.sync_log Samples.rclone_log)) = 4.
Proof.
  cbv zeta.
  destruct (sync_loop_spec logs Sync.init_stats) as (_ & _ & _ & H3 & H4 & _).
  cbv zeta in *. cbn [Sync.init_stats Sync.total_size_mb Sync.total_synced] in *.
  assert (E : Sync.total_size_mb (Sync.sync_stats_of logs rclone_logs)
              = sumZ (map fst (filter_map moved_of (before_failure logs))) /\
              Sync.total_synced (Sync.sync_stats_of logs rclone_logs)
              = sumZ (map snd (filter_map moved_of (before_failure logs)))).
  { destruct (sync_stats_of_cases logs rclone_logs) as [[_ ->]|[_ ->]];
      cbv zeta.
    - rewrite H3, H4. split; lia.
    - destruct (rclone_loop_counts (rev rclone_logs)
                  (fst (Sync.sync_loop logs Sync.init_stats)))
        as (_ & _ & R3 & R4).
      cbv zeta in R3, R4. rewrite R3, R4, H3, H4. split; lia. }
  destruct E as [E1 E2]. rewrite E1, E2.
  split; [reflexivity|]. split; [reflexivity|].
  split; [|split; [|vm_compute; split; reflexivity]];
    apply sumZ_nonneg; intros x Hx; apply in_map_iff in Hx;
    destruct Hx as ([size count] & <- & Hin); apply in_filter_map in Hin;
    destruct Hin as (log & _ & Hm); apply moved_of_nonneg in Hm; tauto.
Qed.

(** ** ServiceStatusProbe *)

(** C9: when the liveness query raises (timeout, or the process cannot be
    started), or when it returns and the status query raises, the probe
    returns the degraded record: inactive, status "unknown", with the text
    of the exception as error detail. *)
Theorem probe_degrades_on_failure
    (run : Service.runner) (service_name : string) (e : Exn.exn) :
  (run (Service.is_active_argv service_name) 5 = Exn.raise e \/
   (exists r, run (Service.is_active_argv service_name) 5 = Exn.ret r) /\
   run (Service.status_argv service_name) 5 = Exn.raise e) ->
  let s := Service.get_service_status run service_name in
  s = Service.Degraded false "unknown" (Exn.exn_msg e) /\
  Service.ss_active s = false /\
  Service.ss_status s = "unknown" /\
  Service.ss_error s = Some (Exn.exn_msg e).
Proof.
  intros H s.
  assert (E : s = Service.Degraded false "unknown" (Exn.exn_msg e)).
  { subst s. unfold Service.get_service_status, Service.probe.
    destruct H as [H1|[(r & H1) H2]]; rewrite H1; cbn.
    - reflexivity.
    - rewrite H2; reflexivity. }
  rewrite E; repeat split.
Qed.

Lemma probe_degrades_on_failure_witness :
  let s := Service.get_service_status Samples.timeout_runner "docker" in
  s = Service.Degraded false "unknown" "Command timed out after 5 seconds" /\
  Service.ss_active s = false /\
  Service.ss_status s = "unknown" /\
  Service.ss_error s = Some "Command timed out after 5 seconds".
Proof.
  apply (probe_degrades_on_failure Samples.timeout_runner "docker"
           (Exn.mk_exn "TimeoutExpired" "Command timed out after 5 seconds")).
  left; reflexivity.
Defined.

(** A probe whose two queries return reports what the status text says. *)
Example probe_running :
  let run : Service.runner :=
    fun argv _ =>
      if Progress.str_in "is-active" argv
      then Exn.ret (Service.mk_completed 0 (Samples.line "active"))
      else Exn.ret (Service.mk_completed 0
             (" Active: active (running) since Mon 2024-01-01 10:00:00 UTC; 1h ago"
              ++ Samples.nl ++ " Main PID: 1234 (dockerd)"
              ++ Samples.nl ++ " Memory: 12.5M")) in
  Service.get_service_status run "docker"
    = Service.Probed true "running" (Some 1234) "12.5M"
        "Mon 2024-01-01 10:00:00 UTC".
Proof. vm_compute; reflexivity. Qed.

Lemma search_lit_contains (p : string) (r : Re.regex) (s : string) (c : Re.caps) :
  Re.search (Re.Cat (Re.Lit p) r) s = Some c -> PyStr.contains p s = true.
Proof.
  assert (Hl : forall s t, Re.lit p s = Some t -> PyStr.startswith p s = true).
  { clear. induction p as [|a p IH]; intros s t H; [destruct s; reflexivity|].
    destruct s as [|b s]; cbn in *; [discriminate|].
    destruct (Ascii.eqb a b); [|discriminate]. cbn. eapply IH; eauto. }
  assert (Hm : forall s, Re.match_here (Re.Cat (Re.Lit p) r) s <> None ->
                         PyStr.startswith p s = true).
  { intros s0 H. unfold Re.match_here in H. cbn [Re.run] in H.
    destruct (Re.lit p s0) eqn:E; [eapply Hl; eauto|congruence]. }
  induction s as [|a s IH]; cbn [Re.search PyStr.contains].
  - destruct (Re.match_here _ "") eqn:E; [|discriminate].
    intros _. rewrite Hm by congruence. reflexivity.
  - destruct (Re.match_here _ (String a s)) eqn:E.
    + intros _. rewrite Hm by congruence. reflexivity.
    + intros H. rewrite (IH H). apply orb_true_r.
Qed.

(** X8: when both queries return, whatever their exit codes, and the PID
    found in the status text, if any, has at most 4300 digits, the probe
    reports a full record and not the degraded one: [active] tells whether
    the stripped output of the liveness query is exactly "active", [status]
    is "running" when active and "stopped" otherwise, and the PID, when
    reported, is not negative.  A PID of more digits makes [int] raise and
    the probe return the degraded record. *)
Theorem probe_reports_when_queries_return
    (run : Service.runner) (service_name : string) (r1 r2 : Service.completed) :
  run (Service.is_active_argv service_name) 5 = Exn.ret r1 ->
  run (Service.status_argv service_name) 5 = Exn.ret r2 ->
  (forall c, Re.search Service.pid_re (Service.stdout r2) = Some c ->
             (String.length (Re.group_str 1 c) <= 4300)%nat) ->
  let active := String.eqb (PyStr.strip (Service.stdout r1)) "active" in
  (exists pid memory uptime,
     Service.get_service_status run service_name
       = Service.Probed active (if active then "running" else "stopped")
           pid memory uptime /\
     (forall n, pid = Some n -> 0 <= n)) /\
  Service.ss_status
    (Service.get_service_status
       (fun _ _ =>
          Exn.ret (Service.mk_completed 0
                     (" Main PID: " ++ Samples.nines 4301 ++ " (dockerd)")))
       "docker") = "unknown".
Proof.
  intros H1 H2 Hpid active.
  split; [|vm_compute; reflexivity].
  unfold Service.get_service_status, Service.probe.
  rewrite H1. cbn [Exn.bind Exn.ret]. rewrite H2. cbn [Exn.bind Exn.ret].
  destruct (Re.search Service.pid_re (Service.stdout r2)) as [c|] eqn:E.
  - rewrite int_short by (apply Hpid; reflexivity).
    cbn [Exn.bind Exn.ret Exn.try_except].
    eexists _, _, _. split; [reflexivity|].
    intros n Hn; inversion Hn; subst n.
    eapply group_value_nonneg; [exact E|]. shape_cases.
  - cbn [Exn.bind Exn.ret Exn.try_except].
    eexists _, _, _. split; [reflexivity|]. discriminate.
Qed.

Lemma probe_reports_when_queries_return_witness :
  let run : Service.runner :=
    fun argv _ =>
      if Progress.str_in "is-active" argv
      then Exn.ret (Service.mk_completed 3 (Samples.line "inactive"))
      else Exn.ret (Service.mk_completed 3 " Main PID: 1234 (dockerd)") in
  exists pid memory uptime,
    Service.get_service_status run "docker"
      = Service.Probed false "stopped" pid memory uptime /\
    (forall n, pid = Some n -> 0 <= n).
Proof.
  cbv zeta.
  refine (proj1 (probe_reports_when_queries_return _ "docker"
            (Service.mk_completed 3 (Samples.line "inactive"))
            (Service.mk_completed 3 " Main PID: 1234 (dockerd)") _ _ _));
    try reflexivity.
  intros c Hc. vm_compute in Hc. inversion Hc; subst c. vm_compute. lia.
Defined.

(** X9: when both queries return and the PID found in the status text, if
    any, has at most 4300 digits, a field whose label does not occur in the
    status text is reported as absent: no PID without "Main PID: ", memory
    "N/A" without "Memory: ", uptime "N/A" without "Active: active (". *)
Theorem probe_fields_absent_without_label
    (run : Service.runner) (service_name : string) (r1 r2 : Service.completed) :
  run (Service.is_active_argv service_name) 5 = Exn.ret r1 ->
  run (Service.status_argv service_name) 5 = Exn.ret r2 ->
  (forall c, Re.search Service.pid_re (Service.stdout r2) = Some c ->
             (String.length (Re.group_str 1 c) <= 4300)%nat) ->
  match Service.get_service_status run service_name with
  | Service.Probed _ _ pid memory uptime =>
      (PyStr.contains "Main PID: " (Service.stdout r2) = false -> pid = None) /\
      (PyStr.contains "Memory: " (Service.stdout r2) = false -> memory = "N/A") /\
      (PyStr.contains "Active: active (" (Service.stdout r2) = false ->
       uptime = "N/A")
  | Service.Degraded _ _ _ => False
  end.
Proof.
  intros H1 H2 Hpid.
  unfold Service.get_service_status, Service.probe.
  rewrite H1. cbn [Exn.bind Exn.ret]. rewrite H2. cbn [Exn.bind Exn.ret].
  assert (Hm :
            (PyStr.contains "Memory: " (Service.stdout r2) = false ->
             match Re.search Service.mem_re (Service.stdout r2) with
             | Some c => (Re.group_str 1 c ++ Re.group_str 2 c)%string
             | None => "N/A"
             end = "N/A") /\
            (PyStr.contains "Active: active (" (Service.stdout r2) = false ->
             match Re.search Service.uptime_re (Service.stdout r2) with
             | Some c => Re.group_str 1 c
             | None => "N/A"
             end = "N/A")).
  { split; intros Hc.
    - destruct (Re.search Service.mem_re _) eqn:E; [|reflexivity].
      apply search_lit_contains in E. congruence.
    - destruct (Re.search Service.uptime_re _) eqn:E; [|reflexivity].
      apply search_lit_contains in E. congruence. }
  destruct Hm as [Hmem Hup].
  destruct (Re.search Service.pid_re (Service.stdout r2)) as [c|] eqn:E.
  - rewrite int_short by (apply Hpid; reflexivity).
    cbn [Exn.bind Exn.ret Exn.try_except].
    split; [|split; assumption].
    intros Hc. apply search_lit_contains in E. congruence.
  - cbn [Exn.bind Exn.ret Exn.try_except].
    split; [reflexivity|split; assumption].
Qed.

Lemma probe_fields_absent_without_label_witness :
  match Service.get_service_status
          (fun _ _ => Exn.ret (Service.mk_completed 0 "active")) "docker" with
  | Service.Probed _ _ pid memory uptime =>
      (PyStr.contains "Main PID: " "active" = false -> pid = None) /\
      (PyStr.contains "Memory: " "active" = false -> memory = "N/A") /\
      (PyStr.contains "Active: active (" "active" = false -> uptime = "N/A")
  | Service.Degraded _ _ _ => False
  end.
Proof.
  apply (probe_fields_absent_without_label
           (fun _ _ => Exn.ret (Service.mk_completed 0 "active")) "docker"
           (Service.mk_completed 0 "active") (Service.mk_completed 0 "active"));
    try reflexivity.
  intros c Hc. vm_compute in Hc. discriminate.
Defined.

(** ** ProgressTracker *)

(** A line on which no conversion raises leaves the loop variables as
    [scan_step] says. *)
Lemma scan_line_ok (st st' : Progress.scan_state) (log : string) :
  Progress.scan_line st log = Exn.ret st' -> st' = Progress.scan_step st log.
Proof.
  unfold Progress.scan_line, Progress.scan_step, Progress.transferred.
  destruct (Progress.transferred_match log) as [[d s]|].
  - destruct (PyInt.int d) as [e|p] eqn:E; [discriminate|].
    apply int_value in E; subst p. cbn [Exn.bind Exn.ret].
    intros H; inversion H; reflexivity.
  - cbn [Exn.bind Exn.ret]. intros H; inversion H; reflexivity.
Qed.

Lemma scan_lines_ok (logs : list string) (st st' : Progress.scan_state) :
  Progress.scan_lines logs st = Exn.ret st' ->
  st' = fold_left Progress.scan_step logs st.
Proof.
  revert st; induction logs as [|log logs IH]; intros st; cbn [Progress.scan_lines].
  - intros H; inversion H; reflexivity.
  - destruct (Progress.scan_line st log) as [e|st1] eqn:E; [discriminate|].
    apply scan_line_ok in E; subst st1. cbn [Exn.bind fold_left]. apply IH.
Qed.

(** When the loop over the tail ends without raising, its variables are
    those of [scan]. *)
Lemma scan_tail_ok (logs : list string) (st : Progress.scan_state) :
  Progress.scan_tail logs = Exn.ret st -> st = Progress.scan logs.
Proof. apply scan_lines_ok. Qed.

(** With every [rclone] command line readable and no transfer process, the
    loop over the process table reads no log and falls through. *)
Lemma scan_procs_idle
    (fs : LogTail.filesystem) (procs : list Progress.proc_info) :
  (forall p, In p procs -> Progress.is_rclone p = true ->
             Progress.cmdline p <> None) ->
  existsb transfer_proc procs = false ->
  Progress.scan_procs fs procs = Exn.ret Progress.idle.
Proof.
  induction procs as [|p procs IH]; intros Hr Hex; [reflexivity|].
  cbn [existsb] in Hex. apply orb_false_elim in Hex. destruct Hex as [Hp Hex].
  assert (IH' := IH (fun q Hq => Hr q (or_intror Hq)) Hex).
  cbn [Progress.scan_procs]. unfold transfer_proc in Hp.
  destruct (Progress.is_rclone p) eqn:Ep; [|exact IH'].
  destruct (Progress.cmdline p) as [cl|] eqn:Ec;
    [|exfalso; exact (Hr p (or_introl eq_refl) Ep Ec)].
  cbn [Exn.bind Exn.ret andb] in *. rewrite Hp. exact IH'.
Qed.

(** Whatever the process table, the loop raises, returns the idle record,
    or returns the uploading record of a scan that found something, and this
    last only with a transfer process in the table. *)
Lemma scan_procs_cases (fs : LogTail.filesystem) (procs : list Progress.proc_info) :
  let st := Progress.scan (LogTail.parse_log_file fs RCLONE_LOG_FILE 50) in
  match Progress.scan_procs fs procs with
  | inl _ => True
  | inr r =>
      r = Progress.idle \/
      (r = Progress.uploading st /\ Progress.found st = true /\
       existsb transfer_proc procs = true)
  end.
Proof.
  cbv zeta. induction procs as [|p procs IH]; [left; reflexivity|].
  cbn [Progress.scan_procs existsb]. unfold transfer_proc at 1.
  destruct (Progress.is_rclone p); [|exact IH].
  destruct (Progress.cmdline p) as [cl|]; [|exact I].
  cbn [Exn.bind Exn.ret andb].
  destruct (Progress.transfer_args cl); [|exact IH].
  destruct (Progress.scan_tail _) as [e|st] eqn:Et; [exact I|].
  apply scan_tail_ok in Et; subst st. cbn [Exn.bind].
  destruct (Progress.found _) eqn:Ef.
  - right; auto.
  - destruct (Progress.scan_procs fs procs) as [e|r]; [exact I|].
    destruct IH as [IH|(H1 & H2 & H3)]; [left; exact IH|congruence].
Qed.

(** The progress kept by the scan is that of the oldest progress line of
    the tail: every later match of the newest-to-oldest scan overwrites the
    earlier ones. *)
Lemma scan_keeps_oldest_transfer (logs : list string) :
  let st := Progress.scan logs in
  match hd_error (filter_map Progress.transferred logs) with
  | Some (p, s) =>
      Progress.sc_progress st = Some p /\ Progress.sc_speed st = Some s
  | None => Progress.sc_progress st = None /\ Progress.sc_speed st = None
  end.
Proof.
  cbv zeta. unfold Progress.scan.
  induction logs as [|log logs IH]; [split; reflexivity|].
  cbn [rev filter_map]. rewrite fold_left_app. cbn [fold_left].
  set (acc := fold_left Progress.scan_step (rev logs) Progress.scan_init) in *.
  unfold Progress.scan_step.
  destruct (Progress.transferred log) as [[p s]|].
  - cbn [hd_error Progress.sc_file].
    destruct (Progress.file_of log); [destruct (negb _)|]; split; reflexivity.
  - destruct (Progress.file_of log); [destruct (negb _)|]; exact IH.
Qed.

(** C2, on the code: with an [rclone move] running and a log tail whose
    progress lines read 10% (older) and 90% (newer), the reported progress
    and speed are those of the older line, while the most recent progress
    line, the first one of the scan, says 90% at 2 MiB/s. *)
Theorem progress_overwritten_by_older_line :
  let fs := Samples.fs_of Samples.sync_log Samples.rclone_log in
  let r := Progress.get_upload_progress fs [Samples.rclone_move] in
  most_recent_transfer (LogTail.parse_log_file fs RCLONE_LOG_FILE 50)
    = Some (90, "2 MiB/s") /\
  Progress.is_uploading r = true /\
  Progress.progress r = 10 /\
  Progress.speed r = "1 MiB/s".
Proof. vm_compute. repeat split; reflexivity. Qed.

(** C3, on the code: an [rclone copy] is running.  With no transfer log,
    and with a log whose only line is a progress line at 0%, neither a
    non-empty file name nor a non-zero percentage comes out of the scan: the
    call falls through to the return the code labels "no active rclone
    process found" and reports idle, where the claim says uploading. *)
Theorem transfer_without_progress_is_idle :
  let procs := [Samples.rclone_copy] in
  let no_log := Samples.fs_of LogTail.Absent LogTail.Absent in
  let at_zero :=
    Samples.fs_of LogTail.Absent
      (LogTail.Lines
         [Samples.line "Transferred:       0 B / 1 GiB, 0%, 0 B/s, ETA -"]) in
  existsb transfer_proc procs = true /\
  Progress.get_upload_progress no_log procs
    = Progress.mk_progress false None 0 "N/A" "空闲" /\
  Progress.transferred "Transferred:       0 B / 1 GiB, 0%, 0 B/s, ETA -"
    = Some (0, "0 B/s") /\
  Progress.get_upload_progress at_zero procs
    = Progress.mk_progress false None 0 "N/A" "空闲".
Proof. vm_compute. repeat split; reflexivity. Qed.

(** X10: when every [rclone] process has a readable command line and none
    of them has a [move], [copy] or [sync] argument (in particular when no
    process is named [rclone]), the result is the idle record, whatever the
    transfer log contains. *)
Theorem idle_without_transfer_process
    (fs : LogTail.filesystem) (procs : list Progress.proc_info) :
  (forall p, In p procs -> Progress.is_rclone p = true ->
             Progress.cmdline p <> None) ->
  existsb transfer_proc procs = false ->
  Progress.get_upload_progress fs procs
    = Progress.mk_progress false None 0 "N/A" "空闲".
Proof.
  intros Hr Hex. unfold Progress.get_upload_progress.
  rewrite scan_procs_idle by assumption. reflexivity.
Qed.

Lemma idle_without_transfer_process_witness :
  Progress.get_upload_progress
    (Samples.fs_of Samples.sync_log Samples.rclone_log)
    [Progress.mk_proc 1 (Some "systemd") None;
     Progress.mk_proc 9 (Some "rclone") (Some ["rclone"; "lsd"; "gd:"])]
  = Progress.mk_progress false None 0 "N/A" "空闲".
Proof.
  apply idle_without_transfer_process.
  - intros p [<-|[<-|[]]] H; cbn in *; discriminate.
  - reflexivity.
Defined.

(** X11: when the first process named [rclone] in the table has a command
    line psutil could not read, the membership test raises and the result is
    the "unknown" record, whatever the log and the later processes are. *)
Theorem unknown_on_unreadable_command_line
    (fs : LogTail.filesystem) (pre post : list Progress.proc_info)
    (p : Progress.proc_info) :
  (forall q, In q pre -> Progress.is_rclone q = false) ->
  Progress.is_rclone p = true ->
  Progress.cmdline p = None ->
  Progress.get_upload_progress fs (pre ++ p :: post)%list
    = Progress.mk_progress false None 0 "N/A" "未知".
Proof.
  intros Hpre Hp Hc. unfold Progress.get_upload_progress.
  induction pre as [|q pre IH]; cbn [app Progress.scan_procs].
  - rewrite Hp, Hc. reflexivity.
  - rewrite (Hpre q (or_introl eq_refl)).
    apply IH. intros x Hx; apply Hpre; right; exact Hx.
Qed.

Lemma unknown_on_unreadable_command_line_witness :
  Progress.get_upload_progress
    (Samples.fs_of Samples.sync_log Samples.rclone_log)
    ([Progress.mk_proc 1 (Some "systemd") None]
       ++ Progress.mk_proc 9 (Some "rclone") None :: [Samples.rclone_move])%list
  = Progress.mk_progress false None 0 "N/A" "未知".
Proof.
  apply unknown_on_unreadable_command_line.
  - intros q [<-|[]]; reflexivity.
  - reflexivity.
  - reflexivity.
Defined.

(** X12: the call never reports an upload on its own authority: whenever
    [is_uploading] is true, the table holds an [rclone] process with a
    [move], [copy] or [sync] argument and the scan of the log tail found a
    non-empty file name or a non-zero percentage. *)
Theorem uploading_needs_process_and_progress
    (fs : LogTail.filesystem) (procs : list Progress.proc_info) :
  Progress.is_uploading (Progress.get_upload_progress fs procs) = true ->
  existsb transfer_proc procs = true /\
  Progress.found
    (Progress.scan (LogTail.parse_log_file fs RCLONE_LOG_FILE 50)) = true.
Proof.
  unfold Progress.get_upload_progress.
  pose proof (scan_procs_cases fs procs) as H. cbv zeta in H.
  destruct (Progress.scan_procs fs procs) as [e|r]; cbn [Exn.try_except].
  - discriminate.
  - destruct H as [->|(-> & H1 & H2)]; [discriminate|auto].
Qed.

Lemma uploading_needs_process_and_progress_witness :
  let fs := Samples.fs_of Samples.sync_log Samples.rclone_log in
  existsb transfer_proc [Samples.rclone_move] = true /\
  Progress.found
    (Progress.scan (LogTail.parse_log_file fs RCLONE_LOG_FILE 50)) = true.
Proof.
  apply (uploading_needs_process_and_progress
           (Samples.fs_of Samples.sync_log Samples.rclone_log)
           [Samples.rclone_move]).
  vm_compute; reflexivity.
Defined.

Lemma scan_step_file (st : Progress.scan_state) (log : string) :
  Progress.sc_file (Progress.scan_step st log)
    = match Progress.file_of log with
      | Some f =>
          if PyStr.truthy_opt (Progress.sc_file st)
          then Progress.sc_file st else Some f
      | None => Progress.sc_file st
      end.
Proof.
  unfold Progress.scan_step.
  destruct (Progress.transferred log) as [[p s]|], (Progress.file_of log);
    cbn [Progress.sc_file]; try reflexivity;
    destruct (PyStr.truthy_opt (Progress.sc_file st)); reflexivity.
Qed.

Lemma scan_loop_file (logs : list string) (st : Progress.scan_state) :
  let st' := fold_left Progress.scan_step logs st in
  if PyStr.truthy_opt (Progress.sc_file st)
  then Progress.sc_file st' = Progress.sc_file st
  else match hd_error (filter_map named_file logs) with
       | Some f => Progress.sc_file st' = Some f
       | None => PyStr.truthy_opt (Progress.sc_file st') = false
       end.
Proof.
  cbv zeta. revert st; induction logs as [|log logs IH]; intros st.
  - cbn. destruct (PyStr.truthy_opt (Progress.sc_file st)) eqn:E; auto.
  - cbn [fold_left filter_map]. specialize (IH (Progress.scan_step st log)).
    rewrite scan_step_file in IH. unfold named_file at 1.
    destruct (PyStr.truthy_opt (Progress.sc_file st)) eqn:E.
    + destruct (Progress.file_of log); rewrite E in IH; exact IH.
    + destruct (Progress.file_of log) as [f|]; [|rewrite E in IH; exact IH].
      cbn [PyStr.truthy_opt] in IH.
      destruct (PyStr.truthy f); [exact IH|exact IH].
Qed.

(** X13: the current file kept by the scan is the name offered by the most
    recent line of the tail that offers a non-empty one (older lines never
    replace it); with no such line the reported name is the placeholder. *)
Theorem current_file_most_recent (logs : list string) :
  match hd_error (filter_map named_file (rev logs)) with
  | Some f =>
      Progress.sc_file (Progress.scan logs) = Some f /\
      Progress.current_file (Progress.uploading (Progress.scan logs)) = Some f
  | None =>
      Progress.current_file (Progress.uploading (Progress.scan logs))
        = Some "处理中..."
  end.
Proof.
  unfold Progress.scan.
  pose proof (scan_loop_file (rev logs) Progress.scan_init) as H.
  cbn [Progress.scan_init Progress.sc_file PyStr.truthy_opt] in H. cbv zeta in H.
  destruct (hd_error (filter_map named_file (rev logs))) as [f|] eqn:E.
  - split; [exact H|].
    cbn [Progress.uploading Progress.current_file]. rewrite H.
    cbn [Progress.str_or].
    assert (Hf : PyStr.truthy f = true).
    { destruct (filter_map named_file (rev logs)) as [|g l] eqn:El;
        [discriminate|]. inversion E; subst g.
      assert (Hin : In f (filter_map named_file (rev logs)))
        by (rewrite El; left; reflexivity).
      apply in_filter_map in Hin. destruct Hin as (x & _ & Hx).
      unfold named_file in Hx. destruct (Progress.file_of x); [|discriminate].
      destruct (PyStr.truthy s) eqn:Es; inversion Hx; subst; exact Es. }
    rewrite Hf. reflexivity.
  - cbn [Progress.uploading Progress.current_file]. unfold Progress.str_or.
    destruct (Progress.sc_file _) as [f|]; [|reflexivity].
    cbn [PyStr.truthy_opt] in H. rewrite H. reflexivity.
Qed.

Lemma transferred_nonneg (log : string) (p : Z) (s : string) :
  Progress.transferred log = Some (p, s) -> 0 <= p.
Proof.
  unfold Progress.transferred, Progress.transferred_match.
  destruct (PyStr.contains "Transferred:" log); [|discriminate].
  destruct (Re.search Progress.transferred_re log) as [c|] eqn:E; [|discriminate].
  intros H; inversion H; subst; clear H.
  eapply group_value_nonneg; [exact E|]. shape_cases.
Qed.

Lemma scan_progress_nonneg (logs : list string) (n : Z) :
  Progress.sc_progress (Progress.scan logs) = Some n -> 0 <= n.
Proof.
  pose proof (scan_keeps_oldest_transfer logs) as H. cbv zeta in H.
  destruct (hd_error (filter_map Progress.transferred logs)) as [[p s]|] eqn:E.
  - destruct H as [H _]. rewrite H. intros Hn; inversion Hn; subst n.
    destruct (filter_map Progress.transferred logs) as [|g l] eqn:El;
      [discriminate|]. inversion E; subst g.
    assert (Hin : In (p, s) (filter_map Progress.transferred logs))
      by (rewrite El; left; reflexivity).
    apply in_filter_map in Hin. destruct Hin as (x & _ & Hx).
    eapply transferred_nonneg; eauto.
  - destruct H as [H _]. rewrite H. discriminate.
Qed.

Lemma str_or_truthy (x : option string) (d : string) :
  PyStr.truthy d = true -> PyStr.truthy (Progress.str_or x d) = true.
Proof.
  intros Hd. unfold Progress.str_or.
  destruct x as [s|]; [|exact Hd]. destruct (PyStr.truthy s) eqn:E; auto.
Qed.

(** X14: the returned record is well formed whatever the inputs.  When it
    says uploading, its status is "正在上传", its current file and its speed
    are non-empty texts and its progress is not negative; when it does not,
    it carries no file, progress 0 and speed "N/A". *)
Theorem upload_record_well_formed
    (fs : LogTail.filesystem) (procs : list Progress.proc_info) :
  let r := Progress.get_upload_progress fs procs in
  if Progress.is_uploading r then
    Progress.status r = "正在上传" /\
    (exists f, Progress.current_file r = Some f /\ PyStr.truthy f = true) /\
    PyStr.truthy (Progress.speed r) = true /\
    0 <= Progress.progress r
  else
    Progress.current_file r = None /\ Progress.progress r = 0 /\
    Progress.speed r = "N/A" /\
    (Progress.status r = "空闲" \/ Progress.status r = "未知").
Proof.
  cbv zeta. unfold Progress.get_upload_progress.
  pose proof (scan_procs_cases fs procs) as H. cbv zeta in H.
  destruct (Progress.scan_procs fs procs) as [e|r]; cbn [Exn.try_except].
  - cbn. auto.
  - destruct H as [->|(-> & _ & _)]; [cbn; auto|].
    cbn [Progress.uploading Progress.is_uploading Progress.status
         Progress.current_file Progress.speed Progress.progress].
    split; [reflexivity|]. split; [|split].
    + eexists; split; [reflexivity|]. apply str_or_truthy; reflexivity.
    + apply str_or_truthy; reflexivity.
    + unfold Progress.int_or_0.
      destruct (Progress.sc_progress _) as [n|] eqn:E; [|lia].
      eapply scan_progress_nonneg; eauto.
Qed.

(** ** LogTailReader: edges *)

Lemma parse_log_file_lines (fs : LogTail.filesystem) (p : string)
    (max_lines : Z) (lines : list string) :
  fs p = LogTail.Lines lines ->
  LogTail.parse_log_file fs p max_lines
    = map PyStr.strip (LogTail.slice_from (- max_lines) lines).
Proof.
  intros H. unfold LogTail.parse_log_file, LogTail.exists_, LogTail.readlines.
  rewrite H. reflexivity.
Qed.

Lemma parse_log_file_not_lines (fs : LogTail.filesystem) (p : string)
    (max_lines : Z) :
  (forall lines, fs p <> LogTail.Lines lines) ->
  LogTail.parse_log_file fs p max_lines = [].
Proof.
  intros H. unfold LogTail.parse_log_file, LogTail.exists_, LogTail.readlines.
  destruct (fs p) as [|e|lines] eqn:E; try reflexivity.
  exfalso; exact (H lines eq_refl).
Qed.

(** X3: when neither log file can be read (absent, or failing to open),
    [get_sync_stats] returns the default record: zero counters, no
    [last_sync], no recent files. *)
Theorem sync_stats_default_without_logs (fs : LogTail.filesystem) :
  (forall lines, fs SYNC_LOG_FILE <> LogTail.Lines lines) ->
  (forall lines, fs RCLONE_LOG_FILE <> LogTail.Lines lines) ->
  Sync.get_sync_stats fs = Sync.mk_stats 0 0 0 0 None [].
Proof.
  intros H1 H2. unfold Sync.get_sync_stats.
  rewrite !parse_log_file_not_lines by assumption. reflexivity.
Qed.

Lemma sync_stats_default_without_logs_witness :
  Sync.get_sync_stats
    (Samples.fs_of LogTail.Absent
       (LogTail.Unreadable (Exn.mk_exn "PermissionError" "Permission denied")))
  = Sync.mk_stats 0 0 0 0 None [].
Proof.
  apply sync_stats_default_without_logs; vm_compute; discriminate.
Defined.

(** X4: for a readable file and a line count that is zero or negative,
    [parse_log_file] returns the file without its first [- max_lines] lines
    (stripped): the whole file for zero, nothing once [- max_lines] reaches
    the number of lines. *)
Theorem parse_log_file_nonpositive (fs : LogTail.filesystem) (p : string)
    (max_lines : Z) (lines : list string) :
  fs p = LogTail.Lines lines ->
  max_lines <= 0 ->
  LogTail.parse_log_file fs p max_lines
    = map PyStr.strip (skipn (Z.to_nat (- max_lines)) lines).
Proof.
  intros H Hle. rewrite (parse_log_file_lines _ _ _ _ H).
  unfold LogTail.slice_from.
  replace (- max_lines <? 0) with false by (symmetry; apply Z.ltb_ge; lia).
  destruct (Z.le_gt_cases (- max_lines) (Z.of_nat (List.length lines))) as [Hs|Hs].
  - rewrite Z.min_l by exact Hs. reflexivity.
  - rewrite Z.min_r by lia. rewrite Nat2Z.id.
    rewrite skipn_all. rewrite skipn_all2 by lia. reflexivity.
Qed.

Lemma parse_log_file_nonpositive_witness :
  LogTail.parse_log_file (Samples.fs_of Samples.sync_log LogTail.Absent)
    SYNC_LOG_FILE (-2)
  = map PyStr.strip
      (skipn (Z.to_nat (- -2))
         [ Samples.line "[2024-01-01 10:00] 同步成功: 已移动 50MB, 共 3 个文件";
           Samples.line "[2024-01-01 10:30] ERROR: 同步失败";
           Samples.line "[2024-01-01 11:00] 同步成功: 已移动 7MB, 共 1 个文件" ]).
Proof.
  apply (parse_log_file_nonpositive
           (Samples.fs_of Samples.sync_log LogTail.Absent) SYNC_LOG_FILE (-2)).
  - reflexivity.
  - lia.
Defined.

Lemma lstrip_first (s : string) (a : ascii) :
  first_char (PyStr.lstrip s) = Some a -> PyStr.is_space a = false.
Proof.
  induction s as [|x s IH]; cbn [PyStr.lstrip]; [discriminate|].
  destruct (PyStr.is_space x) eqn:E; [exact IH|].
  cbn. intros H; inversion H; subst; exact E.
Qed.

Lemma rstrip_first (s : string) (a : ascii) :
  first_char (PyStr.rstrip s) = Some a -> first_char s = Some a.
Proof.
  destruct s as [|x s]; cbn [PyStr.rstrip]; [discriminate|].
  destruct (PyStr.rstrip s); [destruct (PyStr.is_space x)|]; cbn;
    congruence.
Qed.

Lemma rstrip_last (s : string) (a : ascii) :
  last_char (PyStr.rstrip s) = Some a -> PyStr.is_space a = false.
Proof.
  induction s as [|x s IH]; cbn [PyStr.rstrip]; [discriminate|].
  destruct (PyStr.rstrip s) as [|y t].
  - destruct (PyStr.is_space x) eqn:E; cbn; [discriminate|].
    intros H; inversion H; subst; exact E.
  - cbn [last_char] in *. destruct (last_char t); exact IH.
Qed.

Lemma strip_ends (s : string) :
  (forall a, first_char (PyStr.strip s) = Some a -> PyStr.is_space a = false) /\
  (forall a, last_char (PyStr.strip s) = Some a -> PyStr.is_space a = false).
Proof.
  unfold PyStr.strip; split; intros a H.
  - apply rstrip_first in H. eapply lstrip_first; eauto.
  - eapply rstrip_last; eauto.
Qed.

(** X5: whatever the file and the line count, no line returned by
    [parse_log_file] begins or ends with a white-space character (in
    particular none keeps its line terminator). *)
Theorem parse_log_file_lines_stripped (fs : LogTail.filesystem) (p : string)
    (max_lines : Z) (x : string) :
  In x (LogTail.parse_log_file fs p max_lines) ->
  (forall a, first_char x = Some a -> PyStr.is_space a = false) /\
  (forall a, last_char x = Some a -> PyStr.is_space a = false).
Proof.
  destruct (fs p) as [|e|lines] eqn:E.
  - rewrite parse_log_file_not_lines by (intros l; congruence). intros [].
  - rewrite parse_log_file_not_lines by (intros l; congruence). intros [].
  - rewrite (parse_log_file_lines _ _ _ _ E). intros H.
    apply in_map_iff in H. destruct H as (y & <- & _). apply strip_ends.
Qed.

Lemma parse_log_file_lines_stripped_witness :
  (forall a, first_char "[2024-01-01 10:30] ERROR: 同步失败" = Some a ->
             PyStr.is_space a = false) /\
  (forall a, last_char "[2024-01-01 10:30] ERROR: 同步失败" = Some a ->
             PyStr.is_space a = false).
Proof.
  apply (parse_log_file_lines_stripped
           (Samples.fs_of Samples.sync_log LogTail.Absent) SYNC_LOG_FILE 2).
  vm_compute. left; reflexivity.
Defined.

(** ** RateSampler: signs *)

Lemma rate_mbps_sign (delta elapsed : Z) :
  0 < elapsed ->
  (delta <= 0 -> Net.rate_mbps delta elapsed <= 0) /\
  (0 <= delta -> 0 <= Net.rate_mbps delta elapsed).
Proof.
  intros He. unfold Net.rate_mbps.
  assert (H8 : not_negative (Py64.of_int 8)) by (apply of_int_sign; lia).
  assert (HM : not_negative (Py64.of_int (1024 * 1024)))
    by (apply of_int_sign; lia).
  split; intros Hd; apply hundredths_sign; apply (div_sign _ _ HM);
    apply (mul_sign _ _ H8); apply speed_sign; assumption.
Qed.

Lemma gb_sign (bytes : Z) : 0 <= bytes -> 0 <= Net.gb bytes.
Proof.
  intros H. unfold Net.gb. apply hundredths_sign.
  apply true_div_sign; [reflexivity|exact H].
Qed.

(** X6: with a stored sample and a strictly positive elapsed time, a
    counter that did not decrease since the stored sample gives a speed, in
    bytes per second and in Mbps, that is not negative, and a counter that
    did not move gives the speed 0; each speed is the float quotient of the
    difference by the elapsed seconds, truncated, and each GB total of a
    non-negative counter is not negative. *)
Theorem speeds_nonnegative_when_counters_grow
    (st : Net.sampler) (last io : Net.net_io) (t now : Z) :
  Net.last_net_io st = Some last ->
  Net.last_net_io_time st = Some t ->
  0 < now - t ->
  Net.bytes_sent last <= Net.bytes_sent io ->
  Net.bytes_recv last <= Net.bytes_recv io ->
  let r := fst (Net.get_network_stats st (Exn.ret io) now) in
  (0 <= Net.upload_speed r /\ 0 <= Net.upload_speed_mbps r /\
   Net.upload_speed r
     = Py64.trunc (Py64.div (Py64.of_int (Net.bytes_sent io - Net.bytes_sent last))
                            (Py64.true_div (now - t) 1000000))) /\
  (0 <= Net.download_speed r /\ 0 <= Net.download_speed_mbps r /\
   Net.download_speed r
     = Py64.trunc (Py64.div (Py64.of_int (Net.bytes_recv io - Net.bytes_recv last))
                            (Py64.true_div (now - t) 1000000))) /\
  (Net.bytes_sent io = Net.bytes_sent last ->
   Net.upload_speed r = 0 /\ Net.upload_speed_mbps r = 0) /\
  (Net.bytes_recv io = Net.bytes_recv last ->
   Net.download_speed r = 0 /\ Net.download_speed_mbps r = 0) /\
  (0 <= Net.bytes_sent io -> 0 <= Net.total_sent_gb r) /\
  (0 <= Net.bytes_recv io -> 0 <= Net.total_recv_gb r).
Proof.
  intros Hl Ht Hpos Hs Hr r. subst r.
  rewrite get_network_stats_ok, Hl, Ht.
  replace (0 <? now - t) with true by (symmetry; apply Z.ltb_lt; exact Hpos).
  cbn [fst Net.upload_speed Net.download_speed Net.upload_speed_mbps
       Net.download_speed_mbps Net.total_sent_gb Net.total_recv_gb].
  pose proof (rate_sign (Net.bytes_sent io - Net.bytes_sent last) _ Hpos) as [A1 A2].
  pose proof (rate_sign (Net.bytes_recv io - Net.bytes_recv last) _ Hpos) as [B1 B2].
  pose proof (rate_mbps_sign (Net.bytes_sent io - Net.bytes_sent last) _ Hpos)
    as [C1 C2].
  pose proof (rate_mbps_sign (Net.bytes_recv io - Net.bytes_recv last) _ Hpos)
    as [D1 D2].
  split; [|split; [|split; [|split; [|split]]]].
  - split; [apply A2; lia|]. split; [apply C2; lia|reflexivity].
  - split; [apply B2; lia|]. split; [apply D2; lia|reflexivity].
  - intros E. split; [specialize (A1 ltac:(lia)); specialize (A2 ltac:(lia))
                     |specialize (C1 ltac:(lia)); specialize (C2 ltac:(lia))]; lia.
  - intros E. split; [specialize (B1 ltac:(lia)); specialize (B2 ltac:(lia))
                     |specialize (D1 ltac:(lia)); specialize (D2 ltac:(lia))]; lia.
  - apply gb_sign.
  - apply gb_sign.
Qed.

Lemma speeds_nonnegative_when_counters_grow_witness :
  let st := Net.mk_sampler (Some (Net.mk_net_io 100 200)) (Some 0) in
  let r := fst (Net.get_network_stats st
                  (Exn.ret (Net.mk_net_io 1100 200)) 3000000) in
  Net.upload_speed r = 333 /\ Net.upload_speed_mbps r = 0 /\
  Net.download_speed r = 0 /\ Net.download_speed_mbps r = 0 /\
  0 <= Net.upload_speed r /\ 0 <= Net.total_sent_gb r.
Proof.
  pose proof (speeds_nonnegative_when_counters_grow
                (Net.mk_sampler (Some (Net.mk_net_io 100 200)) (Some 0))
                (Net.mk_net_io 100 200) (Net.mk_net_io 1100 200) 0 3000000
                eq_refl eq_refl) as H.
  cbn [Net.bytes_sent Net.bytes_recv] in H.
  specialize (H ltac:(lia) ltac:(lia) ltac:(lia)).
  cbv zeta in *.
  destruct H as ((H1 & _ & _) & _ & _ & H4 & H5 & _).
  split; [vm_compute; reflexivity|]. split; [vm_compute; reflexivity|].
  split; [apply H4; reflexivity|]. split; [apply H4; reflexivity|].
  split; [exact H1|apply H5; lia].
Defined.

(** ** Configuration file *)

Lemma dict_get_set (k k' v : string) (d : Config.dict) :
  Config.dict_get k (Config.dict_set k' v d)
    = if String.eqb k k' then Some v else Config.dict_get k d.
Proof.
  induction d as [|[k0 v0] d IH]; cbn.
  - destruct (String.eqb k k'); reflexivity.
  - destruct (String.eqb_spec k' k0) as [->|Hne]; cbn.
    + destruct (String.eqb k k0); reflexivity.
    + destruct (String.eqb_spec k k0) as [->|Hne'].
      * destruct (String.eqb_spec k0 k'); [congruence|reflexivity].
      * exact IH.
Qed.

Lemma in_dict_set (k v k' v' : string) (d : Config.dict) :
  In (k, v) (Config.dict_set k' v' d) -> (k, v) = (k', v') \/ In (k, v) d.
Proof.
  induction d as [|[k0 v0] d IH]; cbn.
  - intros [H|[]]; left; congruence.
  - destruct (String.eqb_spec k' k0) as [->|Hne]; cbn.
    + intros [H|H]; [left; congruence|right; right; exact H].
    + intros [H|H]; [right; left; exact H|].
      destruct (IH H); [left|right; right]; assumption.
Qed.

(** X16: looking a key up in the result of [read_config] gives the value of
    the last line of the file that assigns that key, and nothing when no
    line does; a failure after the lines were read changes nothing. *)
Theorem read_config_last_assignment_wins
    (lines : list string) (stopped : option Exn.exn) (k : string) :
  Config.dict_get k (Config.read_config (Config.Read lines stopped))
    = last_assigned k lines.
Proof.
  cbn [Config.read_config]. unfold last_assigned.
  induction lines as [|raw lines IH] using rev_ind; [reflexivity|].
  rewrite fold_left_app, rev_app_distr. cbn [fold_left rev app filter_map].
  unfold Config.config_step at 1.
  destruct (Config.assignment raw) as [[k' v]|]; [|exact IH].
  rewrite dict_get_set. destruct (String.eqb k k'); [reflexivity|exact IH].
Qed.

Lemma split_eq_none (s : string) :
  PyStr.contains "=" s = false -> Config.split_eq s = None.
Proof.
  induction s as [|a s IH]; cbn [PyStr.contains PyStr.startswith Config.split_eq];
    [reflexivity|].
  rewrite Ascii.eqb_sym. destruct (Ascii.eqb a "=") eqn:E; cbn.
  - destruct s; discriminate.
  - replace (match s with "" => true | String _ _ => true end) with true
      by (destruct s; reflexivity).
    cbn. intros H. rewrite (IH H). reflexivity.
Qed.

(** X17: a line that is blank once stripped, or starts with [#], or holds
    no [=], is ignored: the configuration read is the one read from the file
    without that line. *)
Theorem read_config_ignores_comments
    (before after : list string) (raw : string) (stopped : option Exn.exn) :
  (PyStr.strip raw = "" \/
   PyStr.startswith "#" (PyStr.strip raw) = true \/
   PyStr.contains "=" (PyStr.strip raw) = false) ->
  Config.read_config (Config.Read (before ++ raw :: after)%list stopped)
    = Config.read_config (Config.Read (before ++ after)%list stopped).
Proof.
  intros H. cbn [Config.read_config].
  rewrite !fold_left_app. cbn [fold_left]. f_equal.
  generalize (fold_left Config.config_step before []); intros d.
  unfold Config.config_step, Config.assignment.
  destruct H as [H|[H|H]].
  - rewrite H. reflexivity.
  - rewrite H, orb_true_r. reflexivity.
  - rewrite (split_eq_none _ H).
    destruct (negb _ || _); reflexivity.
Qed.

Lemma read_config_ignores_comments_witness :
  Config.read_config
    (Config.Read (["A=1"] ++ "  # B=2" :: ["C=3"])%list None)
  = Config.read_config (Config.Read (["A=1"] ++ ["C=3"])%list None).
Proof.
  apply read_config_ignores_comments.
  right; left; reflexivity.
Defined.

Lemma all_chars_lstrip (p : ascii -> bool) (s : string) :
  all_chars p s = true -> all_chars p (PyStr.lstrip s) = true.
Proof.
  induction s as [|a s IH]; cbn [PyStr.lstrip]; [auto|].
  destruct (PyStr.is_space a); [|auto].
  cbn. intros H; apply andb_prop in H; apply IH; tauto.
Qed.

Lemma all_chars_rstrip (p : ascii -> bool) (s : string) :
  all_chars p s = true -> all_chars p (PyStr.rstrip s) = true.
Proof.
  induction s as [|a s IH]; cbn [PyStr.rstrip all_chars]; [auto|].
  intros H; apply andb_prop in H; destruct H as [Ha Hs].
  specialize (IH Hs).
  destruct (PyStr.rstrip s); [destruct (PyStr.is_space a)|]; cbn in *;
    rewrite ?Ha, ?IH; reflexivity.
Qed.

Lemma split_eq_key (s k v : string) :
  Config.split_eq s = Some (k, v) ->
  all_chars (fun a => negb (Ascii.eqb a "=")) k = true.
Proof.
  revert k; induction s as [|a s IH]; intros k; cbn [Config.split_eq];
    [discriminate|].
  destruct (Ascii.eqb a "=") eqn:E.
  - intros H; inversion H; reflexivity.
  - destruct (Config.split_eq s) as [[k0 v0]|]; [|discriminate].
    intros H; inversion H; subst. cbn. rewrite E, (IH k0 eq_refl). reflexivity.
Qed.

Lemma lstrip_chars_first (chars s : string) (a : ascii) :
  first_char (Config.lstrip_chars chars s) = Some a ->
  Re.mem_string a chars = false.
Proof.
  induction s as [|x s IH]; cbn [Config.lstrip_chars]; [discriminate|].
  destruct (Re.mem_string x chars) eqn:E; [exact IH|].
  cbn. intros H; inversion H; subst; exact E.
Qed.

Lemma rstrip_chars_first (chars s : string) (a : ascii) :
  first_char (Config.rstrip_chars chars s) = Some a -> first_char s = Some a.
Proof.
  destruct s as [|x s]; cbn [Config.rstrip_chars]; [discriminate|].
  destruct (Config.rstrip_chars chars s);
    [destruct (Re.mem_string x chars)|]; cbn; congruence.
Qed.

Lemma rstrip_chars_last (chars s : string) (a : ascii) :
  last_char (Config.rstrip_chars chars s) = Some a ->
  Re.mem_string a chars = false.
Proof.
  induction s as [|x s IH]; cbn [Config.rstrip_chars]; [discriminate|].
  destruct (Config.rstrip_chars chars s) as [|y t].
  - destruct (Re.mem_string x chars) eqn:E; cbn; [discriminate|].
    intros H; inversion H; subst; exact E.
  - cbn [last_char] in *. destruct (last_char t); exact IH.
Qed.

Lemma in_config_loop (lines : list string) (d : Config.dict) (k v : string) :
  In (k, v) (fold_left Config.config_step lines d) ->
  In (k, v) d \/ exists raw, In raw lines /\ Config.assignment raw = Some (k, v).
Proof.
  revert d; induction lines as [|raw lines IH]; intros d H; [left; exact H|].
  cbn [fold_left] in H. apply IH in H. destruct H as [H|(x & Hx & Ha)].
  - unfold Config.config_step in H.
    destruct (Config.assignment raw) as [[k' v']|] eqn:E; [|left; exact H].
    apply in_dict_set in H. destruct H as [H|H]; [|left; exact H].
    right. exists raw. split; [left; reflexivity|congruence].
  - right. exists x. split; [right; exact Hx|exact Ha].
Qed.

(** X18: every entry of the configuration has a key that holds no [=] and
    neither begins nor ends with white space, and a value that neither
    begins nor ends with a quote character. *)
Theorem read_config_entries_clean (src : Config.source) (k v : string) :
  In (k, v) (Config.read_config src) ->
  all_chars (fun a => negb (Ascii.eqb a "=")) k = true /\
  (forall a, first_char k = Some a -> PyStr.is_space a = false) /\
  (forall a, last_char k = Some a -> PyStr.is_space a = false) /\
  (forall a, first_char v = Some a -> Re.mem_string a Config.quotes = false) /\
  (forall a, last_char v = Some a -> Re.mem_string a Config.quotes = false).
Proof.
  destruct src as [e|lines stopped]; cbn [Config.read_config]; [intros []|].
  intros H. apply in_config_loop in H. destruct H as [[]|(raw & _ & Ha)].
  unfold Config.assignment in Ha.
  destruct (negb _ || _); [discriminate|].
  destruct (Config.split_eq (PyStr.strip raw)) as [[key value]|] eqn:E;
    [|discriminate].
  inversion Ha; subst k v; clear Ha.
  split; [|split; [|split; [|split]]].
  - unfold PyStr.strip. apply all_chars_rstrip, all_chars_lstrip.
    eapply split_eq_key; eauto.
  - apply strip_ends.
  - apply strip_ends.
  - intros a Hf. unfold Config.strip_chars in Hf.
    apply rstrip_chars_first in Hf. eapply lstrip_chars_first; eauto.
  - intros a Hl. unfold Config.strip_chars in Hl.
    eapply rstrip_chars_last; eauto.
Qed.

Lemma read_config_entries_clean_witness :
  all_chars (fun a => negb (Ascii.eqb a "=")) "REMOTE" = true /\
  (forall a, first_char "REMOTE" = Some a -> PyStr.is_space a = false) /\
  (forall a, last_char "REMOTE" = Some a -> PyStr.is_space a = false) /\
  (forall a, first_char "gd:/Media" = Some a ->
             Re.mem_string a Config.quotes = false) /\
  (forall a, last_char "gd:/Media" = Some a ->
             Re.mem_string a Config.quotes = false).
Proof.
  apply (read_config_entries_clean
           (Config.Read ["# remote"; " REMOTE = 'gd:/Media' "] None)).
  vm_compute. left; reflexivity.
Defined.

(** A configuration file read end to end. *)
Example read_config_sample :
  Config.read_config
    (Config.Read
       [ Samples.line "# sync settings"; Samples.line "";
         Samples.line " REMOTE = 'gd:/Media' "; Samples.line "INTERVAL=60";
         Samples.line "no assignment here"; Samples.line "INTERVAL=300" ]
       None)
  = [("REMOTE", "gd:/Media"); ("INTERVAL", "300")].
Proof. vm_compute; reflexivity. Qed.

(** ** Sessions and credentials *)


(** A user name that is an array never reaches the comparison; a number is
    answered 401; the stored password is answered 200. *)
Example login_request_samples :
  (exists e, Auth.login_request Auth.USERS None
               (Auth.Object Auth.FContainer (Auth.FText "x")) = Exn.raise e) /\
  Auth.login_request Auth.USERS None
    (Auth.Object Auth.FScalar (Auth.FText "WZYwzy258852!"))
    = Exn.ret (Auth.mk_response (Auth.Outcome false "用户名或密码错误") 401, None) /\
  Auth.login_request Auth.USERS None
    (Auth.Object (Auth.FText "admin") (Auth.FText "WZYwzy258852!"))
    = Exn.ret (Auth.mk_response (Auth.Outcome true "登录成功") 200, Some "admin").
Proof. split; [eexists; reflexivity|split; reflexivity]. Qed.

Lemma change_password_cases
    (persist : Auth.persister) (sess : Auth.session)
    (old_password new_password : option string) (us : Auth.users) :
  let r := Auth.change_password persist sess old_password new_password us in
  (Auth.status_code (fst r) <> 200 /\ snd r = us) \/
  (Auth.status_code (fst r) = 200 /\
   exists u np,
     sess = Some u /\ new_password = Some np /\ us u = old_password /\
     6 <= Auth.len np /\ persist u np = Exn.ret tt /\
     snd r = Auth.set_password u np us).
Proof.
  cbv zeta. unfold Auth.change_password, Auth.login_required.
  destruct sess as [u|]; [|left; cbn; split; [lia|reflexivity]].
  unfold Auth.change_password_view.
  destruct (us u) as [p|] eqn:Eu, old_password as [o|];
    try (left; cbn; split; [lia|reflexivity]).
  destruct (String.eqb_spec p o) as [->|Hne];
    [|left; cbn; split; [lia|reflexivity]].
  cbn [negb].
  destruct new_password as [np|]; [|left; cbn; split; [lia|reflexivity]].
  destruct (negb (PyStr.truthy np) || (Auth.len np <? 6)) eqn:Eg;
    [left; cbn; split; [lia|reflexivity]|].
  apply orb_false_elim in Eg. destruct Eg as [_ Hlen]. apply Z.ltb_ge in Hlen.
  destruct (persist u np) as [e|[]] eqn:Ep; cbn.
  - left; split; [lia|reflexivity].
  - right. split; [reflexivity|]. exists u, np. repeat split; auto.
Qed.


(** X21: after a password change that was answered 200, logging in as that
    user with the new password is granted, and logging in with the old
    password, when it differs from the new one, is refused. *)
Theorem change_password_then_login
    (persist : Auth.persister) (u : string)
    (old_password new_password : option string) (us : Auth.users) :
  let r := Auth.change_password persist (Some u) old_password new_password us in
  Auth.status_code (fst r) = 200 ->
  Auth.status_code (fst (Auth.login (snd r) None (Some u) new_password)) = 200 /\
  (old_password <> new_password ->
   Auth.status_code (fst (Auth.login (snd r) None (Some u) old_password)) = 401).
Proof.
  cbv zeta. intros H.
  destruct (change_password_cases persist (Some u) old_password new_password us)
    as [[H1 _]|[_ (u' & np & Hu & Hn & Ho & _ & _ & Hr)]];
    cbv zeta in *; [congruence|].
  inversion Hu; subst u'; clear Hu. rewrite Hr. subst new_password.
  unfold Auth.login, Auth.set_password. rewrite String.eqb_refl.
  split.
  - rewrite String.eqb_refl. reflexivity.
  - intros Hne. destruct old_password as [o|]; [|reflexivity].
    destruct (String.eqb_spec np o); [congruence|reflexivity].
Qed.

Lemma change_password_then_login_witness :
  let r := Auth.change_password (fun _ _ => Exn.ret tt) (Some "admin")
             (Some "WZYwzy258852!") (Some "s3cret-new") Auth.USERS in
  Auth.status_code
    (fst (Auth.login (snd r) None (Some "admin") (Some "s3cret-new"))) = 200 /\
  (Some "WZYwzy258852!" <> Some "s3cret-new" ->
   Auth.status_code
     (fst (Auth.login (snd r) None (Some "admin") (Some "WZYwzy258852!"))) = 401).
Proof.
  apply (change_password_then_login (fun _ _ => Exn.ret tt) "admin"
           (Some "WZYwzy258852!") (Some "s3cret-new") Auth.USERS).
  reflexivity.
Defined.

(** X22: [change_password] never adds or removes a user, and never touches
    the password of a user other than the one of the session. *)
Theorem change_password_keeps_other_users
    (persist : Auth.persister) (sess : Auth.session)
    (old_password new_password : option string) (us : Auth.users) (k : string) :
  let us' := snd (Auth.change_password persist sess old_password new_password us) in
  (us' k = None <-> us k = None) /\
  (sess <> Some k -> us' k = us k).
Proof.
  cbv zeta.
  destruct (change_password_cases persist sess old_password new_password us)
    as [[_ H]|[_ (u & np & Hu & Hn & Ho & _ & _ & Hr)]]; cbv zeta in *.
  - rewrite H. tauto.
  - rewrite Hr. unfold Auth.set_password.
    destruct (String.eqb_spec k u) as [->|Hne].
    + split; [|congruence].
      split; [discriminate|]. intros Hk. rewrite Hk in Ho.
      unfold Auth.change_password, Auth.login_required,
        Auth.change_password_view in Hr.
      subst sess old_password. rewrite Hk in Hr. cbn in Hr.
      apply (f_equal (fun f => f u)) in Hr. unfold Auth.set_password in Hr.
      rewrite String.eqb_refl in Hr. congruence.
    + tauto.
Qed.

(** ** Remote storage statistics *)

(** X23: [get_cloud_stats] returns the all-zero record whenever the
    command raises (timeout, tool missing), exits with a non-zero code,
    prints something the decoder rejects, prints a document that is not an
    object, or reports a size that is not a number. *)
Theorem cloud_stats_zero_on_failure
    (run : Service.runner) (loads : Cloud.decoder) :
  ((exists e, run Cloud.size_argv 10 = Exn.raise e) \/
   (exists r, run Cloud.size_argv 10 = Exn.ret r /\
      (Service.returncode r <> 0 \/
       (exists e, loads (Service.stdout r) = Exn.raise e) \/
       (exists t, loads (Service.stdout r) = Exn.ret (Cloud.JNotObject t)) \/
       (exists fields b t,
           loads (Service.stdout r) = Exn.ret (Cloud.JObject fields) /\
           fields "bytes" = Some (Cloud.JOther b t))))) ->
  Cloud.get_cloud_stats run loads
    = Cloud.mk_cloud_stats (Cloud.JInt 0) (Cloud.JInt 0) 0.
Proof.
  unfold Cloud.get_cloud_stats, Cloud.cloud_stats_body.
  intros [(e & ->)|(r & -> & H)]; [reflexivity|].
  cbn [Exn.bind Exn.ret].
  destruct (Z.eqb_spec (Service.returncode r) 0) as [Hz|Hnz]; [|reflexivity].
  destruct H as [H|[(e & ->)|[(t & ->)|(fields & b & t & -> & Hb)]]];
    [congruence|reflexivity|reflexivity|].
  cbn. rewrite Hb. reflexivity.
Qed.

Lemma cloud_stats_zero_on_failure_witness :
  Cloud.get_cloud_stats
    (fun _ _ => Exn.ret (Service.mk_completed 1 "Failed to size: directory not found"))
    (fun _ => Exn.raise (Exn.mk_exn "JSONDecodeError" "Expecting value"))
  = Cloud.mk_cloud_stats (Cloud.JInt 0) (Cloud.JInt 0) 0.
Proof.
  apply cloud_stats_zero_on_failure.
  right. eexists. split; [reflexivity|]. left. cbn. lia.
Defined.

(** [round(n / (1024**3), 2)] on an integer: the hundredths of the float
    quotient, unless the quotient is beyond the float range. *)
Lemma gb_int (n : Z) :
  Cloud.gb (Cloud.JInt n) =
    if Py64.is_finite (Py64.true_div n (1024 ^ 3))
    then Exn.ret (Py64.hundredths (Py64.true_div n (1024 ^ 3)))
    else Exn.raise (Exn.mk_exn "OverflowError"
                      "integer division result too large for a float").
Proof.
  unfold Cloud.gb, Cloud.number, Py64.true_div_checked.
  cbn [Exn.bind Exn.ret]. change (1024 ^ 3 =? 0) with false. cbv iota.
  destruct (Py64.is_finite _); reflexivity.
Qed.

Lemma gb_or_0_int (n : Z) :
  Cloud.gb_or_0 (Cloud.JInt n) =
    if Py64.is_finite (Py64.true_div n (1024 ^ 3))
    then Exn.ret (Py64.hundredths (Py64.true_div n (1024 ^ 3)))
    else Exn.raise (Exn.mk_exn "OverflowError"
                      "integer division result too large for a float").
Proof.
  unfold Cloud.gb_or_0, Cloud.truthy.
  destruct (Z.eqb_spec n 0) as [->|Hn]; cbn [negb]; [reflexivity|].
  apply gb_int.
Qed.

Lemma percent_int (t u : Z) :
  Cloud.percent (Cloud.JInt t) (Cloud.JInt u) =
    if (t =? 0) || (u =? 0) then Exn.ret (Py64.Hundredths 0)
    else if Py64.is_finite (Py64.true_div u t)
    then Exn.ret (Py64.round2 (Py64.mul (Py64.true_div u t) (Py64.of_int 100)))
    else Exn.raise (Exn.mk_exn "OverflowError"
                      "integer division result too large for a float").
Proof.
  unfold Cloud.percent, Cloud.truthy, Cloud.number, Py64.true_div_checked.
  destruct (t =? 0) eqn:Et; cbn [negb andb orb]; [reflexivity|].
  destruct (u =? 0); cbn [negb andb orb Exn.bind Exn.ret]; [reflexivity|].
  rewrite Et. destruct (Py64.is_finite _); reflexivity.
Qed.

Lemma get_int (fields : string -> option Cloud.jvalue) (k : string) (n : Z) :
  (fields k = Some (Cloud.JInt n) \/ fields k = None /\ n = 0) ->
  match fields k with Some v => v | None => Cloud.JInt 0 end = Cloud.JInt n.
Proof. intros [->|[-> ->]]; reflexivity. Qed.

(** X24: when the command exits with code 0 and prints an object whose
    [bytes] is an integer or absent, [get_cloud_stats] reports [count] and
    [bytes] as they are (0 when absent) and, as size, the float quotient of
    [bytes] by [1024**3] rounded to hundredths, of the sign of [bytes];
    when that quotient is beyond the float range the division raises and the
    all-zero record is returned. *)
Theorem cloud_stats_of_object
    (run : Service.runner) (loads : Cloud.decoder)
    (r : Service.completed) (fields : string -> option Cloud.jvalue) (b : Z) :
  run Cloud.size_argv 10 = Exn.ret r ->
  Service.returncode r = 0 ->
  loads (Service.stdout r) = Exn.ret (Cloud.JObject fields) ->
  (fields "bytes" = Some (Cloud.JInt b) \/ fields "bytes" = None /\ b = 0) ->
  let stats := Cloud.get_cloud_stats run loads in
  let x := Py64.true_div b (1024 ^ 3) in
  (Py64.is_finite x = true ->
   Cloud.total_files stats
     = match fields "count" with Some v => v | None => Cloud.JInt 0 end /\
   Cloud.total_size stats = Cloud.JInt b /\
   Cloud.total_size_gb stats = Py64.hundredths x /\
   (0 <= b -> 0 <= Cloud.total_size_gb stats) /\
   (b <= 0 -> Cloud.total_size_gb stats <= 0)) /\
  (Py64.is_finite x = false ->
   stats = Cloud.mk_cloud_stats (Cloud.JInt 0) (Cloud.JInt 0) 0).
Proof.
  intros Hr Hc Hl Hb. cbv zeta.
  unfold Cloud.get_cloud_stats, Cloud.cloud_stats_body.
  rewrite Hr. cbn [Exn.bind Exn.ret]. rewrite Hc. cbn [Z.eqb].
  rewrite Hl. cbn [Exn.bind Exn.ret Cloud.get].
  rewrite (get_int fields "bytes" b Hb), gb_int.
  split; intros Hx; rewrite Hx; [|reflexivity].
  cbn [Exn.bind Exn.ret Exn.try_except Cloud.total_files Cloud.total_size
       Cloud.total_size_gb].
  do 3 (split; [reflexivity|]).
  split; intros H; apply hundredths_sign; apply true_div_sign;
    try reflexivity; exact H.
Qed.

Lemma cloud_stats_of_object_witness :
  let run : Service.runner :=
    fun _ _ => Exn.ret (Service.mk_completed 0 "{}") in
  let fields := fun k : string =>
    if String.eqb k "count" then Some (Cloud.JInt 42)
    else if String.eqb k "bytes" then Some (Cloud.JInt 5368709120)
    else None in
  let stats := Cloud.get_cloud_stats run (fun _ => Exn.ret (Cloud.JObject fields)) in
  Cloud.total_files stats = Cloud.JInt 42 /\
  Cloud.total_size stats = Cloud.JInt 5368709120 /\
  Cloud.total_size_gb stats = 500.
Proof.
  cbv zeta.
  pose proof (cloud_stats_of_object
                (fun _ _ => Exn.ret (Service.mk_completed 0 "{}"))
                (fun _ => Exn.ret (Cloud.JObject
                   (fun k : string =>
                      if String.eqb k "count" then Some (Cloud.JInt 42)
                      else if String.eqb k "bytes"
                           then Some (Cloud.JInt 5368709120)
                      else None)))
                (Service.mk_completed 0 "{}") _ 5368709120
                eq_refl eq_refl eq_refl (or_introl eq_refl)) as [H _].
  destruct (H eq_refl) as (H1 & H2 & H3 & _).
  split; [exact H1|]. split; [exact H2|]. rewrite H3. vm_compute. reflexivity.
Defined.

(** A size of 401 digits is beyond the float range: the division raises
    and the all-zero record is returned. *)
Example cloud_stats_beyond_float_range :
  let fields := fun k : string =>
    if String.eqb k "bytes" then Some (Cloud.JInt (10 ^ 400)) else None in
  Cloud.get_cloud_stats
    (fun _ _ => Exn.ret (Service.mk_completed 0 "{}"))
    (fun _ => Exn.ret (Cloud.JObject fields))
  = Cloud.mk_cloud_stats (Cloud.JInt 0) (Cloud.JInt 0) 0.
Proof. vm_compute. reflexivity. Qed.

(** X25: for an object whose [total], [used] and [free] are integers or
    absent, [get_cloud_quota] never divides by zero.  While every quotient
    stays within the float range it reports the three values as they are,
    each size as the float quotient by [1024**3] rounded to hundredths, and
    as [used_percent] the integer 0 when [total] or [used] is 0 or absent,
    and otherwise the float [used / total * 100] rounded to hundredths, which
    is not negative when [used >= 0] and [total > 0].  When a quotient is
    beyond the float range the division raises and the all-zero record is
    returned. *)
Theorem cloud_quota_percent
    (run : Service.runner) (loads : Cloud.decoder)
    (r : Service.completed) (fields : string -> option Cloud.jvalue)
    (t u f : Z) :
  run Cloud.about_argv 10 = Exn.ret r ->
  Service.returncode r = 0 ->
  loads (Service.stdout r) = Exn.ret (Cloud.JObject fields) ->
  (fields "total" = Some (Cloud.JInt t) \/ fields "total" = None /\ t = 0) ->
  (fields "used" = Some (Cloud.JInt u) \/ fields "used" = None /\ u = 0) ->
  (fields "free" = Some (Cloud.JInt f) \/ fields "free" = None /\ f = 0) ->
  let q := Cloud.get_cloud_quota run loads in
  let in_range n := Py64.is_finite (Py64.true_div n (1024 ^ 3)) in
  let ratio_in_range :=
    (t =? 0) || (u =? 0) || Py64.is_finite (Py64.true_div u t) in
  (in_range t && in_range u && in_range f && ratio_in_range = true ->
   Cloud.total q = Cloud.JInt t /\ Cloud.used q = Cloud.JInt u /\
   Cloud.free q = Cloud.JInt f /\
   Cloud.total_gb q = Py64.hundredths (Py64.true_div t (1024 ^ 3)) /\
   Cloud.used_gb q = Py64.hundredths (Py64.true_div u (1024 ^ 3)) /\
   Cloud.free_gb q = Py64.hundredths (Py64.true_div f (1024 ^ 3)) /\
   (t = 0 \/ u = 0 -> Cloud.used_percent q = Py64.Hundredths 0) /\
   (t <> 0 -> u <> 0 ->
    Cloud.used_percent q
      = Py64.round2 (Py64.mul (Py64.true_div u t) (Py64.of_int 100))) /\
   (0 <= u -> 0 < t ->
    match Cloud.used_percent q with
    | Py64.Hundredths n => 0 <= n
    | Py64.Unrounded x => not_negative x
    end)) /\
  (in_range t && in_range u && in_range f && ratio_in_range = false ->
   q = Cloud.mk_cloud_quota (Cloud.JInt 0) (Cloud.JInt 0) (Cloud.JInt 0) 0 0 0 0).
Proof.
  intros Hr Hc Hl Ht Hu Hf. cbv zeta.
  unfold Cloud.get_cloud_quota, Cloud.cloud_quota_body.
  rewrite Hr. cbn [Exn.bind Exn.ret]. rewrite Hc. cbn [Z.eqb].
  rewrite Hl. cbn [Exn.bind Exn.ret Cloud.get].
  rewrite (get_int fields "total" t Ht), (get_int fields "used" u Hu),
    (get_int fields "free" f Hf).
  rewrite !gb_or_0_int, percent_int.
  destruct (Py64.is_finite (Py64.true_div t (1024 ^ 3))); cbn [andb];
    [|split; [discriminate|reflexivity]].
  destruct (Py64.is_finite (Py64.true_div u (1024 ^ 3))); cbn [andb Exn.bind];
    [|split; [discriminate|reflexivity]].
  destruct (Py64.is_finite (Py64.true_div f (1024 ^ 3))); cbn [andb Exn.bind];
    [|split; [discriminate|reflexivity]].
  destruct (Z.eqb_spec t 0) as [Et|Et]; cbn [orb].
  { split; [intros _|discriminate].
    cbn [Exn.bind Exn.ret Exn.try_except Cloud.total Cloud.used Cloud.free
         Cloud.total_gb Cloud.used_gb Cloud.free_gb Cloud.used_percent].
    do 6 (split; [reflexivity|]).
    split; [reflexivity|]. split; [intros; congruence|]. intros _ H; lia. }
  destruct (Z.eqb_spec u 0) as [Eu|Eu]; cbn [orb].
  { split; [intros _|discriminate].
    cbn [Exn.bind Exn.ret Exn.try_except Cloud.total Cloud.used Cloud.free
         Cloud.total_gb Cloud.used_gb Cloud.free_gb Cloud.used_percent].
    do 6 (split; [reflexivity|]).
    split; [reflexivity|]. split; [intros; congruence|]. intros _ _; lia. }
  destruct (Py64.is_finite (Py64.true_div u t)) eqn:Ex;
    [|split; [discriminate|reflexivity]].
  split; [intros _|discriminate].
  cbn [Exn.bind Exn.ret Exn.try_except Cloud.total Cloud.used Cloud.free
       Cloud.total_gb Cloud.used_gb Cloud.free_gb Cloud.used_percent].
  do 6 (split; [reflexivity|]).
  split; [intros [H|H]; congruence|]. split; [reflexivity|].
  intros H0 H1.
  assert (Hy : not_negative (Py64.mul (Py64.true_div u t) (Py64.of_int 100))).
  { apply mul_sign; [apply of_int_sign; lia|].
    apply true_div_sign; assumption. }
  unfold Py64.round2.
  destruct (Py64.is_finite (Py64.mul _ _)); [apply hundredths_sign|]; exact Hy.
Qed.

Lemma cloud_quota_percent_witness :
  let fields := fun k : string =>
    if String.eqb k "total" then Some (Cloud.JInt 16106127360)
    else if String.eqb k "used" then Some (Cloud.JInt 5368709120)
    else None in
  let q := Cloud.get_cloud_quota
             (fun _ _ => Exn.ret (Service.mk_completed 0 "{}"))
             (fun _ => Exn.ret (Cloud.JObject fields)) in
  Cloud.total q = Cloud.JInt 16106127360 /\
  Cloud.used q = Cloud.JInt 5368709120 /\
  Cloud.free q = Cloud.JInt 0 /\
  Cloud.total_gb q = 1500 /\ Cloud.used_gb q = 500 /\ Cloud.free_gb q = 0 /\
  Cloud.used_percent q = Py64.Hundredths 3333.
Proof.
  cbv zeta.
  pose proof (cloud_quota_percent
                (fun _ _ => Exn.ret (Service.mk_completed 0 "{}"))
                (fun _ => Exn.ret (Cloud.JObject
                   (fun k : string =>
                      if String.eqb k "total" then Some (Cloud.JInt 16106127360)
                      else if String.eqb k "used"
                           then Some (Cloud.JInt 5368709120)
                      else None)))
                (Service.mk_completed 0 "{}") _
                16106127360 5368709120 0 eq_refl eq_refl eq_refl
                (or_introl eq_refl) (or_introl eq_refl)
                (or_intror (conj eq_refl eq_refl))) as [H _].
  destruct (H eq_refl) as (H1 & H2 & H3 & H4 & H5 & H6 & _ & H8 & _).
  split; [exact H1|]. split; [exact H2|]. split; [exact H3|].
  split; [rewrite H4; vm_compute; reflexivity|].
  split; [rewrite H5; vm_compute; reflexivity|].
  split; [rewrite H6; vm_compute; reflexivity|].
  rewrite H8 by discriminate. vm_compute. reflexivity.
Defined.

(** 23 of 160 is 14.37 percent: the float product is just under 14.375.
    A total of 401 digits gives the all-zero record. *)
Example cloud_quota_samples :
  Cloud.percent (Cloud.JInt 160) (Cloud.JInt 23)
    = Exn.ret (Py64.Hundredths 1437) /\
  (let fields := fun k : string =>
     if String.eqb k "total" then Some (Cloud.JInt (10 ^ 400))
     else if String.eqb k "used" then Some (Cloud.JInt 1) else None in
   Cloud.get_cloud_quota
     (fun _ _ => Exn.ret (Service.mk_completed 0 "{}"))
     (fun _ => Exn.ret (Cloud.JObject fields))
   = Cloud.mk_cloud_quota (Cloud.JInt 0) (Cloud.JInt 0) (Cloud.JInt 0) 0 0 0 0).
Proof. split; vm_compute; reflexivity. Qed.

(** X26: [get_cloud_quota] returns the all-zero record whenever the
    command raises, exits with a non-zero code, prints something the decoder
    rejects or a document that is not an object, or reports a [total] that
    is neither a number nor falsy. *)
Theorem cloud_quota_zero_on_failure
    (run : Service.runner) (loads : Cloud.decoder) :
  ((exists e, run Cloud.about_argv 10 = Exn.raise e) \/
   (exists r, run Cloud.about_argv 10 = Exn.ret r /\
      (Service.returncode r <> 0 \/
       (exists e, loads (Service.stdout r) = Exn.raise e) \/
       (exists t, loads (Service.stdout r) = Exn.ret (Cloud.JNotObject t)) \/
       (exists fields t,
           loads (Service.stdout r) = Exn.ret (Cloud.JObject fields) /\
           fields "total" = Some (Cloud.JOther true t))))) ->
  Cloud.get_cloud_quota run loads
    = Cloud.mk_cloud_quota (Cloud.JInt 0) (Cloud.JInt 0) (Cloud.JInt 0) 0 0 0 0.
Proof.
  unfold Cloud.get_cloud_quota, Cloud.cloud_quota_body.
  intros [(e & ->)|(r & -> & H)]; [reflexivity|].
  cbn [Exn.bind Exn.ret].
  destruct (Z.eqb_spec (Service.returncode r) 0) as [Hz|Hnz]; [|reflexivity].
  destruct H as [H|[(e & ->)|[(t & ->)|(fields & t & -> & Hb)]]];
    [congruence|reflexivity|reflexivity|].
  cbn. rewrite Hb. reflexivity.
Qed.

Lemma cloud_quota_zero_on_failure_witness :
  Cloud.get_cloud_quota
    (fun _ _ => Exn.raise (Exn.mk_exn "TimeoutExpired" "timed out after 10 seconds"))
    (fun _ => Exn.ret (Cloud.JNotObject "[]"))
  = Cloud.mk_cloud_quota (Cloud.JInt 0) (Cloud.JInt 0) (Cloud.JInt 0) 0 0 0 0.
Proof.
  apply cloud_quota_zero_on_failure.
  left. eexists. reflexivity.
Defined.

